(** * AAMAS attendance backend (backend.py)

    A shallow embedding of the attendance aggregation and alert escalation
    code of [backend.py]: [sum_hours_missed], [compute_percentages],
    [upsert_alert], [send_alerts] and [upload_students].

    - The three CSV files are modelled as the tables they hold: a list of
      rows per file, each row a record of the strings of its columns
      (the header of each file is fixed by the program).
    - Python floats are IEEE binary64 numbers: [spec_float] with
      precision 53 and maximal exponent 1024, with the operations of the
      standard library's [SpecFloat].
    - [float(s)] and [str(x)] of the Python runtime are parameters of the
      backend, [float_of_str] and [str_of_float]; [FloatText] has the
      instances the examples run with. [int(s)] and [str(n)] are in [PyInt].
    - A Python exception that leaves a function is [None] in [option].
    - The SMTP server and the console are the outside world: how the
      exchange with the server goes is an oracle, the messages the server
      takes and the lines printed are recorded in a log. *)

From Stdlib Require Import ZArith String Ascii List Bool Lia.
From Stdlib Require Import DecimalString DecimalZ.
From Stdlib Require Import Floats.SpecFloat.
From stdpp Require Import gmap strings list fin_maps.

(** ** Python floats *)

Module Float.

Definition prec : Z := 53.
Definition emax : Z := 1024.

Abbreviation float := spec_float.

(** The float of an integer literal ([0.0], [100], [7], ...). *)
Definition of_Z (z : Z) : float := binary_normalize prec emax z 0 false.

Definition zero : float := S754_zero false.

Definition add : float → float → float := SFadd prec emax.
Definition mul : float → float → float := SFmul prec emax.
Definition div : float → float → float := SFdiv prec emax.

(** [x < y] and [x <= y]; both are [false] when an operand is nan. *)
Definition ltb : float → float → bool := SFltb.
Definition leb : float → float → bool := SFleb.

(** The integer nearest to [n / d] for [0 <= n] and [0 < d], a tie going
    to the even neighbour. *)
Definition round_half_even (n d : Z) : Z :=
  let q := (n / d)%Z in
  match (2 * (n mod d) ?= d)%Z with
  | Lt => q
  | Gt => (q + 1)%Z
  | Eq => if Z.even q then q else (q + 1)%Z
  end.

(** The exact value of the finite float [m * 2^e] times 100, as a
    fraction: numerator and denominator. *)
Definition hundredfold_num (m : positive) (e : Z) : Z :=
  (100 * Z.pos m * 2 ^ Z.max 0 e)%Z.
Definition hundredfold_den (e : Z) : Z := (2 ^ Z.max 0 (- e))%Z.

(** The float nearest to [n / 100], with the sign [s]. *)
Definition of_hundredths (s : bool) (n : Z) : float :=
  match n with
  | Z.pos p => SFdiv prec emax (S754_finite s p 0) (S754_finite false 100 0)
  | _ => S754_zero s
  end.

(** [round(x, 2)]: CPython prints the exact value of [x] with two
    decimals, correctly rounded (a tie goes to the even digit), and reads
    the decimal back as the nearest float; infinities and nan are
    returned as they are. *)
Definition round2 (x : float) : float :=
  match x with
  | S754_finite s m e =>
      of_hundredths s (round_half_even (hundredfold_num m e) (hundredfold_den e))
  | _ => x
  end.

(** The specification's rounding, for comparison: the integer nearest to
    [n / d], a tie going up, and two decimals of [x] by it. *)
Definition round_half_up (n d : Z) : Z := ((2 * n + d) / (2 * d))%Z.

Definition round2_half_up (x : float) : float :=
  match x with
  | S754_finite s m e =>
      of_hundredths s (round_half_up (hundredfold_num m e) (hundredfold_den e))
  | _ => x
  end.

(** [N] is the integer nearest to [n / d], the even one of the two when
    [n / d] lies half way between two integers. *)
Definition nearest_tie_even (n d N : Z) : Prop :=
  (0 ≤ N ∧ 2 * Z.abs (N * d - n) ≤ d
   ∧ (2 * Z.abs (N * d - n) = d → Z.even N = true))%Z.

(** [x.is_integer()] *)
Definition is_integer (x : float) : bool :=
  match x with
  | S754_zero _ => true
  | S754_finite _ m e => (Z.pos m * 2 ^ Z.max 0 e mod 2 ^ Z.max 0 (- e) =? 0)%Z
  | _ => false
  end.

(** [int(x)] for a float with [x.is_integer()]: truncation. *)
Definition to_int (x : float) : Z :=
  match x with
  | S754_finite s m e =>
      let q := (Z.pos m * 2 ^ Z.max 0 e / 2 ^ Z.max 0 (- e))%Z in
      if s then (- q)%Z else q
  | _ => 0%Z
  end.

(** [0 <= x] read off the sign: a zero of either sign, a positive finite
    number or plus infinity. *)
Definition nonneg (x : float) : bool :=
  match x with
  | S754_zero _ => true
  | S754_finite s _ _ => negb s
  | S754_infinity s => negb s
  | S754_nan => false
  end.

Definition is_finite (x : float) : bool :=
  match x with
  | S754_zero _ | S754_finite _ _ _ => true
  | _ => false
  end.

End Float.

Abbreviation float := spec_float.

(** ** Python integers and their decimal text *)

Module PyInt.

Local Open Scope string_scope.

(** The ASCII characters [str.strip] and [int] treat as white space. *)
Definition is_space (c : ascii) : bool :=
  let n := nat_of_ascii c in
  (n =? 32)%nat || ((9 <=? n)%nat && (n <=? 13)%nat).

Definition is_digit (c : ascii) : bool :=
  let n := nat_of_ascii c in (48 <=? n)%nat && (n <=? 57)%nat.

Fixpoint lstrip (s : string) : string :=
  match s with
  | String c s' => if is_space c then lstrip s' else s
  | EmptyString => EmptyString
  end.

Fixpoint rstrip (s : string) : string :=
  match s with
  | String c s' =>
      match rstrip s' with
      | EmptyString => if is_space c then EmptyString else String c EmptyString
      | t => String c t
      end
  | EmptyString => EmptyString
  end.

Definition strip (s : string) : string := rstrip (lstrip s).

(** Digit grouping: an underscore is accepted between two digits and
    dropped. [prev] tells whether the character before was a digit. *)
Fixpoint ungroup (prev : bool) (s : string) : option string :=
  match s with
  | EmptyString => Some EmptyString
  | String c s' =>
      if Ascii.eqb c "_" then
        match s' with
        | String d _ => if prev && is_digit d then ungroup false s' else None
        | EmptyString => None
        end
      else String c <$> ungroup (is_digit c) s'
  end.

(** The value of a non-empty string of decimal digits. *)
Definition digits (s : string) : option Z :=
  d ← ungroup false s; Z.of_uint <$> NilZero.uint_of_string d.

(** [int(s)] for a string [s]: white space around is dropped, then an
    optional sign and decimal digits; [None] is [ValueError]. *)
Definition int_of_str (s : string) : option Z :=
  match strip s with
  | String "-" d => Z.opp <$> digits d
  | String "+" d => digits d
  | d => digits d
  end.

(** [str(n)] for an integer [n]. *)
Definition str_of_int (n : Z) : string := NilZero.string_of_int (Z.to_int n).

(** A string of decimal digits only. *)
Fixpoint all_digits (s : string) : bool :=
  match s with
  | String c s' => is_digit c && all_digits s'
  | EmptyString => true
  end.

End PyInt.

(** ** Python floats and their text

    [float(s)] and [str(x)] for ASCII text: the instances of the two
    conversions the examples run the backend with. *)

Module FloatText.

Local Open Scope string_scope.

(** The float nearest to [n * 10^k], with the sign [s]. *)
Definition of_decimal (s : bool) (n k : Z) : float :=
  match n, k with
  | Z.pos p, Z.neg q =>
      SFdiv Float.prec Float.emax (S754_finite s p 0)
        (S754_finite false (10 ^ q) 0)
  | Z.pos p, _ =>
      binary_round Float.prec Float.emax s (p * Z.to_pos (10 ^ k)) 0
  | _, _ => S754_zero s
  end.

(** ASCII lower case. *)
Definition lower_char (c : ascii) : ascii :=
  let n := nat_of_ascii c in
  if (65 <=? n)%nat && (n <=? 90)%nat then ascii_of_nat (n + 32) else c.

Fixpoint lower (s : string) : string :=
  match s with
  | String c s' => String (lower_char c) (lower s')
  | EmptyString => EmptyString
  end.

(** The longest prefix of digits and underscores, and the rest. *)
Fixpoint span_digits (s : string) : string * string :=
  match s with
  | String c s' =>
      if PyInt.is_digit c || Ascii.eqb c "_" then
        let '(d, rest) := span_digits s' in (String c d, rest)
      else (EmptyString, s)
  | EmptyString => (EmptyString, EmptyString)
  end.

Definition split_sign (s : string) : bool * string :=
  match s with
  | String "-" s' => (true, s')
  | String "+" s' => (false, s')
  | _ => (false, s)
  end.

(** The value of a possibly empty group of digits. *)
Definition group_value (d : string) : option Z :=
  d' ← PyInt.ungroup false d; Z.of_uint <$> NilEmpty.uint_of_string d'.

(** The exponent part: empty, or [e] with an optional sign and digits. *)
Definition exponent (s : string) : option Z :=
  match s with
  | EmptyString => Some 0%Z
  | String c s' =>
      if Ascii.eqb (lower_char c) "e" then
        let '(neg, d) := split_sign s' in
        match d with
        | EmptyString => None
        | _ => (λ v : Z, if neg then (- v)%Z else v) <$> group_value d
        end
      else None
  end.

(** [float(s)] for a string [s] of ASCII characters. *)
Definition float_of_str (s : string) : option float :=
  let '(neg, body) := split_sign (PyInt.strip s) in
  let word := lower body in
  if String.eqb word "inf" || String.eqb word "infinity" then
    Some (S754_infinity neg)
  else if String.eqb word "nan" then Some S754_nan
  else
    let '(a, rest) := span_digits body in
    let '(b, rest) :=
      match rest with
      | String "." rest' => span_digits rest'
      | _ => (EmptyString, rest)
      end in
    match a, b with
    | EmptyString, EmptyString => None
    | _, _ =>
        va ← group_value a;
        vb ← group_value b;
        fb ← PyInt.ungroup false b;
        e ← exponent rest;
        let digits := Z.of_nat (String.length fb) in
        Some (of_decimal neg (va * 10 ^ digits + vb) (e - digits))
    end.

(** The number [k] of decimal digits before the point of [n / d]:
    [10^(k-1) <= n / d < 10^k], searched upwards or downwards from [k]. *)
Fixpoint magnitude_up (fuel : nat) (n d k : Z) : Z :=
  match fuel with
  | O => k
  | S fuel' => if (d * 10 ^ k <=? n)%Z then magnitude_up fuel' n d (k + 1) else k
  end.

Fixpoint magnitude_down (fuel : nat) (n d k : Z) : Z :=
  match fuel with
  | O => k
  | S fuel' =>
      if (n * 10 ^ (1 - k) <? d)%Z then magnitude_down fuel' n d (k - 1) else k
  end.

Definition magnitude (n d : Z) : Z :=
  if (d <=? n)%Z then magnitude_up 400 n d 1 else magnitude_down 400 n d 0.

(** [n / d] with [p] significant digits, for [10^(k-1) <= n / d < 10^k]:
    the two neighbours with [p] digits, as integers to be scaled by
    [10^(k-p)], the nearer one first. *)
Definition significant (n d k p : Z) : Z * Z :=
  let shift := (p - k)%Z in
  let num := (n * 10 ^ Z.max 0 shift)%Z in
  let den := (d * 10 ^ Z.max 0 (- shift))%Z in
  let below := (num / den)%Z in
  let near := Float.round_half_even num den in
  (near, if (near =? below)%Z then (below + 1)%Z else below).

(** Whether the digits [digits], scaled by [10^(k-p)], read back as [x]. *)
Definition reads_back (x : float) (digits k p : Z) : bool :=
  match SFcompare (of_decimal false digits (k - p)) (SFabs x) with
  | Some Eq => true
  | _ => false
  end.

(** The shortest digits that read back as [x], trying 1 to 17 of them;
    of the two neighbours of a length the nearer one that reads back. *)
Fixpoint shortest (fuel : nat) (x : float) (n d k p : Z) : Z * Z :=
  let '(near, far) := significant n d k p in
  match fuel with
  | O => (near, p)
  | S fuel' =>
      if reads_back x near k p then (near, p)
      else if reads_back x far k p then (far, p)
      else shortest fuel' x n d k (p + 1)
  end.

(** Digits that have reached [10^p] are [10^(p-1)], one place higher. *)
Definition carry (digits k p : Z) : Z * Z :=
  if (digits =? 10 ^ p)%Z then (10 ^ (p - 1), k + 1)%Z else (digits, k).

Fixpoint zeros (n : nat) : string :=
  match n with O => EmptyString | S n' => String "0" (zeros n') end.

(** Trailing zeros of the digits are not printed. *)
Fixpoint trim (fuel : nat) (digits p : Z) : Z * Z :=
  match fuel with
  | O => (digits, p)
  | S fuel' =>
      if (1 <? p)%Z && (digits mod 10 =? 0)%Z then trim fuel' (digits / 10) (p - 1)
      else (digits, p)
  end.

Definition str_of_digits (digits k p : Z) : string :=
  let ds := PyInt.str_of_int digits in
  if (k <=? -4)%Z || (16 <? k)%Z then
    let e := (k - 1)%Z in
    let mantissa :=
      match ds with
      | String c EmptyString => ds
      | String c rest => String c (String "." rest)
      | EmptyString => ds
      end in
    let ee := PyInt.str_of_int (Z.abs e) in
    mantissa ++ "e" ++ (if (e <? 0)%Z then "-" else "+")
    ++ (if (Z.abs e <? 10)%Z then "0" else "") ++ ee
  else if (k <=? 0)%Z then "0." ++ zeros (Z.to_nat (- k)) ++ ds
  else if (k <? p)%Z then
    substring 0 (Z.to_nat k) ds ++ "."
    ++ substring (Z.to_nat k) (Z.to_nat (p - k)) ds
  else ds ++ zeros (Z.to_nat (k - p)) ++ ".0".

(** [str(x)] for a float [x]. *)
Definition str_of_float (x : float) : string :=
  match x with
  | S754_nan => "nan"
  | S754_infinity s => if s then "-inf" else "inf"
  | S754_zero s => if s then "-0.0" else "0.0"
  | S754_finite s m e =>
      let n := (Z.pos m * 2 ^ Z.max 0 e)%Z in
      let d := (2 ^ Z.max 0 (- e))%Z in
      let k := magnitude n d in
      let '(digits, p) := shortest 16 x n d k 1 in
      let '(digits, k) := carry digits k p in
      let '(digits, p) := trim 17 digits p in
      (if s then "-" else "") ++ str_of_digits digits k p
  end.

End FloatText.

(** ** The tables

    One record per CSV file, a field per column, every value the string
    [csv.DictReader] yields for it. *)

Module Student.
Record t := {
  student_id : string; name : string; programme : string; part : string;
  course_code : string; group : string; phone : string; email : string }.
End Student.

Module Attendance.
Record t := {
  student_id : string; name : string; course_code : string; group : string;
  week : string; class_label : string; hours : string; date : string }.
End Attendance.

Module Alert.
Record t := {
  student_id : string; name : string; course_code : string; group : string;
  percent : string; count : string;
  sent7 : string; sent10 : string; sent15 : string }.
End Alert.

(** [hours_missed] of a report row: an [int] when the float has no
    fractional part, the float otherwise. *)
Inductive number :=
  | Int (n : Z)
  | Flt (x : float).

(** A row of [compute_percentages]. *)
Module Row.
Record t := {
  student_id : string; name : string; hours_missed : number;
  percent : float; thresholds : string; phone : string; email : string }.
End Row.

(** What a request does to the outside world: a message the SMTP server
    has taken, a line printed on the console. *)
Inductive effect :=
  | Smtp (to subject body : string)
  | Print (line : string).

(** How the exchange of one call of [send_email] with the SMTP server goes.
    [smtplib.SMTP(...)] raises when the connection is refused or times out,
    and [send_message] raises when the server refuses the greeting, the
    sender, every recipient or the data: no message has been taken then.
    [send_message] returns once the server has answered the data with 250;
    leaving the [with] block then sends QUIT, which raises when the answer
    is not 221. *)
Inductive smtp_outcome :=
  | Not_taken
  | Taken_unconfirmed
  | Taken_confirmed.

(** Whether the server has taken the message, and whether the [try] block
    ends without an exception. *)
Definition taken (outcome : smtp_outcome) : bool :=
  match outcome with Not_taken => false | _ => true end.

Definition email_ok (outcome : smtp_outcome) : bool :=
  match outcome with Taken_confirmed => true | _ => false end.

(** ** The backend *)

Section Backend.

Local Open Scope string_scope.

(** [float(s)] for a string [s]; [None] is [ValueError]. *)
Variable float_of_str : string → option float.
(** [str(x)] for a float [x], also what an f-string prints for it. *)
Variable str_of_float : float → string.

(** *** Aggregation *)

(** The loop of [sum_hours_missed] over the attendance rows, [missed]
    the dictionary built so far. *)
Fixpoint sum_hours_loop (attendance : list Attendance.t)
    (course_code group : string) (missed : gmap string float)
    : option (gmap string float) :=
  match attendance with
  | [] => Some missed
  | a :: attendance' =>
      if bool_decide (Attendance.course_code a = course_code)
         && bool_decide (Attendance.group a = group) then
        let sid := Attendance.student_id a in
        hrs ← float_of_str (Attendance.hours a);
        sum_hours_loop attendance' course_code group
          (<[sid := Float.add (default Float.zero (missed !! sid)) hrs]> missed)
      else sum_hours_loop attendance' course_code group missed
  end.

Definition sum_hours_missed (attendance : list Attendance.t)
    (course_code group : string) : option (gmap string float) :=
  sum_hours_loop attendance course_code group ∅.

(** *** Percentages *)

(** [round((hours_missed / float(total_hours)) * 100, 2)
     if float(total_hours) > 0 else 0.0]; the condition is evaluated
    first, and [float(total_hours)] gives the same float both times. *)
Definition percent_of (hours_missed : float) (total_hours : string)
    : option float :=
  th ← float_of_str total_hours;
  if Float.ltb (Float.of_Z 0) th then
    Some (Float.round2 (Float.mul (Float.div hours_missed th) (Float.of_Z 100)))
  else Some Float.zero.

(** The labels of the tiers [7, 10, 15] with [percent >= t]. *)
Definition thresholds_of (percent : float) : list string :=
  t ← [7; 10; 15]%Z;
  if Float.leb (Float.of_Z t) percent then [PyInt.str_of_int t ++ "%"] else [].

Definition shown_hours (hours_missed : float) : number :=
  if Float.is_integer hours_missed then Int (Float.to_int hours_missed)
  else Flt hours_missed.

(** The body of the loop of [compute_percentages] for the student [s]. *)
Definition row_of (missed : gmap string float) (total_hours : string)
    (s : Student.t) : option Row.t :=
  let sid := Student.student_id s in
  let hours_missed := default Float.zero (missed !! sid) in
  percent ← percent_of hours_missed total_hours;
  let thresholds := thresholds_of percent in
  Some {| Row.student_id := sid;
          Row.name := Student.name s;
          Row.hours_missed := shown_hours hours_missed;
          Row.percent := percent;
          Row.thresholds :=
            match thresholds with [] => "-" | _ => String.concat ", " thresholds end;
          Row.phone := Student.phone s;
          Row.email := Student.email s |}.

Definition enrolled (course_code group : string) (s : Student.t) : Prop :=
  Student.course_code s = course_code ∧ Student.group s = group.

Definition compute_percentages (students : list Student.t)
    (attendance : list Attendance.t) (course_code group total_hours : string)
    : option (list Row.t) :=
  let students := filter (enrolled course_code group) students in
  missed ← sum_hours_missed attendance course_code group;
  mapM (row_of missed total_hours) students.

(** *** Alert state *)

Definition alert_key (student_id course_code group : string) (a : Alert.t)
    : Prop :=
  Alert.student_id a = student_id ∧ Alert.course_code a = course_code
  ∧ Alert.group a = group.

#[global] Instance alert_key_dec sid cc g a : Decision (alert_key sid cc g a).
Proof. unfold alert_key. apply _. Defined.

(** [upsert_alert] on the rows of the alerts file; the result is what
    [save_csv] writes back. [int] raising on the stored count leaves the
    function before anything is saved: [None]. *)
Definition upsert_alert (student_id name course_code group : string)
    (percent : float) (hit7 hit10 hit15 : bool) (alerts : list Alert.t)
    : option (list Alert.t) :=
  match list_find (alert_key student_id course_code group) alerts with
  | Some (i, found) =>
      count ← PyInt.int_of_str (Alert.count found);
      Some (<[i := {| Alert.student_id := Alert.student_id found;
                      Alert.name := Alert.name found;
                      Alert.course_code := Alert.course_code found;
                      Alert.group := Alert.group found;
                      Alert.percent := str_of_float percent;
                      Alert.count := PyInt.str_of_int (count + 1);
                      Alert.sent7 := if hit7 then "yes" else Alert.sent7 found;
                      Alert.sent10 := if hit10 then "yes" else Alert.sent10 found;
                      Alert.sent15 := if hit15 then "yes" else Alert.sent15 found |}]>
              alerts)
  | None =>
      Some (app alerts
            [ {| Alert.student_id := student_id;
                 Alert.name := name;
                 Alert.course_code := course_code;
                 Alert.group := group;
                 Alert.percent := str_of_float percent;
                 Alert.count := "1";
                 Alert.sent7 := if hit7 then "yes" else "";
                 Alert.sent10 := if hit10 then "yes" else "";
                 Alert.sent15 := if hit15 then "yes" else "" |} ])
  end.

(** *** Notification *)

Definition build_email_text (name course_code : string) (percent : float)
    : string :=
  let block_note :=
    if Float.leb (Float.of_Z 20) percent then
      String "010" "Note: A student with >=20% absenteeism may be barred from the final exam."
    else "" in
  "Attendance Alert:" ++ String "010" (String "010" "")
  ++ "Please be informed that " ++ name ++ " has " ++ str_of_float percent
  ++ "% class absenteeism (course " ++ course_code ++ ")." ++ String "010" ""
  ++ "Kindly contact your lecturer as soon as possible."
  ++ block_note ++ String "010" (String "010" "")
  ++ "This is an automated message from AAMAS.".

(** [send_email]: [outcome] is how the exchange with the SMTP server goes;
    every exception of the [try] block is caught and turned into [False],
    whether it comes before the server has taken the message or after. The
    text that comes with the flag is dropped by the caller and is not
    modelled. *)
Definition send_email (outcome : smtp_outcome) (to_email subject body : string)
    : bool * list effect :=
  match outcome with
  | Not_taken => (false, [])
  | Taken_unconfirmed => (false, [Smtp to_email subject body])
  | Taken_confirmed => (true, [Smtp to_email subject body])
  end.

Definition send_sms_stub (phone text : string) : bool * list effect :=
  (true, [Print ("[SMS] to " ++ phone ++ ": " ++ text)]).

(** *** Sending alerts *)

(** The outcome of a request to [/send-alerts]: the alerts file after it,
    what it sent and printed, and the count it reports; [None] when an
    exception ended the request. *)
Record run := {
  run_alerts : list Alert.t;
  run_log : list effect;
  sent_count : option nat }.

(** The subject and the SMS text [send_alerts] builds for a row. *)
Definition subject (course_code : string) : string :=
  "Attendance Alert (" ++ course_code ++ ")".

Definition sms_text (name course_code : string) (percent : float) : string :=
  name ++ " has " ++ str_of_float percent ++ "% absenteeism for "
  ++ course_code ++ ". Please advise.".

(** The loop of [send_alerts] over [target], from its [i]-th row on.
    [server i] is how the SMTP exchange for the [i]-th row goes; [sms] is the SMS
    channel, which [send_alerts] runs with [send_sms_stub]. *)
Fixpoint alert_loop (sms : string → string → bool * list effect)
    (server : nat → smtp_outcome) (course_code group : string)
    (target : list Row.t) (i : nat) (alerts : list Alert.t) (count : nat)
    : run :=
  match target with
  | [] => {| run_alerts := alerts; run_log := []; sent_count := Some count |}
  | r :: target' =>
      let percent := Row.percent r in
      let hit7 := Float.leb (Float.of_Z 7) percent in
      let hit10 := Float.leb (Float.of_Z 10) percent in
      let hit15 := Float.leb (Float.of_Z 15) percent in
      let body := build_email_text (Row.name r) course_code percent in
      let '(ok_email, mailed) :=
        send_email (server i) (Row.email r) (subject course_code) body in
      let '(ok_sms, printed) :=
        sms (Row.phone r) (sms_text (Row.name r) course_code percent) in
      let rest :=
        if ok_email || ok_sms then
          match upsert_alert (Row.student_id r) (Row.name r) course_code
                  group percent hit7 hit10 hit15 alerts with
          | Some alerts' =>
              alert_loop sms server course_code group target' (S i) alerts'
                (S count)
          | None =>
              {| run_alerts := alerts; run_log := []; sent_count := None |}
          end
        else
          alert_loop sms server course_code group target' (S i) alerts count
      in
      {| run_alerts := run_alerts rest;
         run_log := (mailed ++ printed ++ run_log rest)%list;
         sent_count := sent_count rest |}
  end.

Definition send_alerts (server : nat → smtp_outcome)
    (students : list Student.t)
    (attendance : list Attendance.t) (alerts : list Alert.t)
    (course_code group total_hours : string) (selected : list string) : run :=
  match compute_percentages students attendance course_code group
          total_hours with
  | Some computed =>
      let target := filter (λ r, Row.student_id r ∈ selected) computed in
      alert_loop send_sms_stub server course_code group target 0 alerts 0
  | None => {| run_alerts := alerts; run_log := []; sent_count := None |}
  end.

(** *** Vocabulary of the statements *)

(** An attendance row of a student in a course and group. *)
Definition event_of (course_code group student_id : string)
    (a : Attendance.t) : Prop :=
  Attendance.course_code a = course_code ∧ Attendance.group a = group
  ∧ Attendance.student_id a = student_id.

(** The hours of the attendance rows of a course and group read as floats. *)
Definition hours_ok (course_code group : string) (a : Attendance.t) : Prop :=
  Attendance.course_code a = course_code → Attendance.group a = group →
  is_Some (float_of_str (Attendance.hours a)).

(** A flag of an alert row is set when the row holds [yes] for it. *)
Definition is_set (flag : string) : Prop := flag = "yes".

(** The rows the alerts file holds for a key. *)
Definition state_of (student_id course_code group : string)
    (alerts : list Alert.t) : list Alert.t :=
  filter (alert_key student_id course_code group) alerts.

(** The stored count of a row reads as an integer. *)
Definition count_ok (a : Alert.t) : Prop :=
  is_Some (PyInt.int_of_str (Alert.count a)).

(** The call of [upsert_alert] that [send_alerts] makes for a row. *)
Definition reconcile (course_code group : string) (r : Row.t)
    (alerts : list Alert.t) : option (list Alert.t) :=
  upsert_alert (Row.student_id r) (Row.name r) course_code group
    (Row.percent r)
    (Float.leb (Float.of_Z 7) (Row.percent r))
    (Float.leb (Float.of_Z 10) (Row.percent r))
    (Float.leb (Float.of_Z 15) (Row.percent r)) alerts.

(** [reconcile] for each of [rows] in turn. *)
Fixpoint reconcile_all (course_code group : string) (rows : list Row.t)
    (alerts : list Alert.t) : option (list Alert.t) :=
  match rows with
  | [] => Some alerts
  | r :: rows' =>
      alerts' ← reconcile course_code group r alerts;
      reconcile_all course_code group rows' alerts'
  end.

(** Whether a channel reports success for the [i]-th row of a run. *)
Definition channel_ok (sms : string → string → bool * list effect)
    (server : nat → smtp_outcome) (course_code : string) (i : nat) (r : Row.t)
    : bool :=
  email_ok (server i)
  || fst (sms (Row.phone r) (sms_text (Row.name r) course_code (Row.percent r))).

(** The rows of [target], numbered from [i], for which a channel reports
    success. *)
Fixpoint processed (sms : string → string → bool * list effect)
    (server : nat → smtp_outcome) (course_code : string)
    (target : list Row.t) (i : nat) : list Row.t :=
  match target with
  | [] => []
  | r :: target' =>
      if channel_ok sms server course_code i r
      then r :: processed sms server course_code target' (S i)
      else processed sms server course_code target' (S i)
  end.

(** The email and the SMS line a run makes for a row. *)
Definition email_of (course_code : string) (r : Row.t) : effect :=
  Smtp (Row.email r) (subject course_code)
    (build_email_text (Row.name r) course_code (Row.percent r)).

Definition sms_line_of (course_code : string) (r : Row.t) : effect :=
  Print ("[SMS] to " ++ Row.phone r ++ ": "
         ++ sms_text (Row.name r) course_code (Row.percent r)).

(** What the two channels do for a row whose SMTP exchange goes as
    [outcome]: the email, when the server takes it, then what the SMS
    channel does. *)
Definition notification (sms : string → string → bool * list effect)
    (course_code : string) (outcome : smtp_outcome) (r : Row.t)
    : list effect :=
  ((if taken outcome then [email_of course_code r] else [])
   ++ snd (sms (Row.phone r)
             (sms_text (Row.name r) course_code (Row.percent r))))%list.

(** The notifications of the rows of [target], numbered from [i]. *)
Fixpoint notifications (sms : string → string → bool * list effect)
    (server : nat → smtp_outcome) (course_code : string)
    (target : list Row.t) (i : nat) : list effect :=
  match target with
  | [] => []
  | r :: target' =>
      (notification sms course_code (server i) r
       ++ notifications sms server course_code target' (S i))%list
  end.

(** Any number of calls of [upsert_alert], one after the other. *)
Inductive reconciliations : list Alert.t → list Alert.t → Prop :=
  | reconciliations_nil alerts : reconciliations alerts alerts
  | reconciliations_cons alerts alerts' alerts'' sid name cc g percent h7 h10 h15 :
      upsert_alert sid name cc g percent h7 h10 h15 alerts = Some alerts' →
      reconciliations alerts' alerts'' →
      reconciliations alerts alerts''.

End Backend.

(** ** Roster upload *)

Module Upload.

Local Open Scope string_scope.

Definition required : list string :=
  ["student_id"; "name"; "programme"; "part"; "course_code"; "group";
   "phone"; "email"].

Inductive msg :=
  | No_file_selected
  | Invalid_header
  | Students_uploaded_successfully
  | Upload_failed.

(** What an upload carries: no file, bytes that are not UTF-8, or the
    records [csv.reader] yields for its lines (a blank line is [[]]). *)
Inductive file :=
  | Missing
  | Undecodable
  | Records (records : list (list string)).

(** The row [csv.DictWriter] writes for the dictionary [csv.DictReader]
    made of a record with at most eight fields: the fields in order, a
    missing one ([None]) written as the empty string. *)
Definition student_of (record : list string) : Student.t :=
  {| Student.student_id := nth 0 record "";
     Student.name := nth 1 record "";
     Student.programme := nth 2 record "";
     Student.part := nth 3 record "";
     Student.course_code := nth 4 record "";
     Student.group := nth 5 record "";
     Student.phone := nth 6 record "";
     Student.email := nth 7 record "" |}.

(** [save_csv] on the dictionaries of [rows]: the file is opened for
    writing, then the rows are written one by one; a record with more
    fields than the header has made a dictionary with an extra key, on
    which [writerow] raises, leaving the rows written so far. The
    boolean tells whether every row was written. *)
Fixpoint save_csv (rows : list (list string)) : list Student.t * bool :=
  match rows with
  | [] => ([], true)
  | row :: rows' =>
      if (length required <? length row)%nat then ([], false)
      else let '(written, ok) := save_csv rows' in
           (student_of row :: written, ok)
  end.

(** A POST to [/upload-students]. *)
Definition upload_students (f : file) (students : list Student.t)
    : list Student.t * msg :=
  match f with
  | Missing => (students, No_file_selected)
  | Undecodable => (students, Upload_failed)
  | Records records =>
      if bool_decide (head records = Some required) then
        let rows := filter (λ row, row ≠ []) (tail records) in
        let '(written, ok) := save_csv rows in
        (written, if ok then Students_uploaded_successfully else Upload_failed)
      else (students, Invalid_header)
  end.

End Upload.

(** ** Recording absences, the report and the list of alerts *)

(** A row of the list of alerts: a row of [compute_percentages] with the
    flags and the count of the student's alert row. *)
Module Listed.
Record t := {
  row : Row.t; sent7 : string; sent10 : string; sent15 : string;
  count : string }.
End Listed.

(** The answers of [/record-absence]. *)
Inductive absence_msg :=
  | Student_not_found
  | Hours_must_be_numeric
  | Absence_recorded.

Section Views.

Local Open Scope string_scope.

Variable float_of_str : string → option float.
(** [s.strip()] for a string [s]. *)
Variable strip : string → string.

(** A POST to [/record-absence] with the fields [form]: the attendance
    file after it, and the answer. The student is looked up by
    [student_id] alone; [append_csv] adds the row at the end. *)
Definition record_absence (form : gmap string string)
    (students : list Student.t) (attendance : list Attendance.t)
    : list Attendance.t * absence_msg :=
  let get (key fallback : string) := strip (default fallback (form !! key)) in
  let student_id := get "student_id" "" in
  let hours := get "hours" "0" in
  match list_find (λ s, Student.student_id s = student_id) students with
  | None => (attendance, Student_not_found)
  | Some (_, found) =>
      match float_of_str hours with
      | None => (attendance, Hours_must_be_numeric)
      | Some _ =>
          (attendance ++
           [ {| Attendance.student_id := student_id;
                Attendance.name := Student.name found;
                Attendance.course_code := get "course_code" "";
                Attendance.group := get "group" "";
                Attendance.week := get "week" "";
                Attendance.class_label := get "class_label" "";
                Attendance.hours := hours;
                Attendance.date := get "date" "" |} ],
           Absence_recorded)%list
      end
  end.

(** A request argument that is there and not empty. *)
Definition present (arg : option string) : option string :=
  match arg with
  | Some s => if bool_decide (s = "") then None else Some s
  | None => None
  end.

(** A GET of [/report]: the rows handed to the page, [None] for them when
    an argument is missing or empty. *)
Definition report (students : list Student.t) (attendance : list Attendance.t)
    (course_code group total_hours : option string)
    : option (option (list Row.t)) :=
  match present course_code, present group, present total_hours with
  | Some cc, Some g, Some th =>
      Some <$> compute_percentages float_of_str students attendance cc g th
  | _, _, _ => Some None
  end.

(** The loop of [load_alerts_map], [m] the dictionary built so far. *)
Fixpoint load_alerts_loop (alerts : list Alert.t) (course_code group : string)
    (m : gmap string Alert.t) : gmap string Alert.t :=
  match alerts with
  | [] => m
  | a :: alerts' =>
      if bool_decide (Alert.course_code a = course_code)
         && bool_decide (Alert.group a = group)
      then load_alerts_loop alerts' course_code group
             (<[Alert.student_id a := a]> m)
      else load_alerts_loop alerts' course_code group m
  end.

Definition load_alerts_map (alerts : list Alert.t)
    (course_code group : string) : gmap string Alert.t :=
  load_alerts_loop alerts course_code group ∅.

(** The rows [alerts] lists for a course and group. *)
Definition alerts_rows (students : list Student.t)
    (attendance : list Attendance.t) (alerts : list Alert.t)
    (course_code group total_hours : string) : option (list Listed.t) :=
  computed ← compute_percentages float_of_str students attendance course_code
               group total_hours;
  let alert_map := load_alerts_map alerts course_code group in
  Some (r ← computed;
        if Float.leb (Float.of_Z 7) (Row.percent r) then
          let a := alert_map !! Row.student_id r in
          [ {| Listed.row := r;
               Listed.sent7 := from_option Alert.sent7 "" a;
               Listed.sent10 := from_option Alert.sent10 "" a;
               Listed.sent15 := from_option Alert.sent15 "" a;
               Listed.count := from_option Alert.count "0" a |} ]
        else []).

(** A GET of [/alerts]. *)
Definition alerts (students : list Student.t) (attendance : list Attendance.t)
    (alert_rows : list Alert.t) (course_code group total_hours : option string)
    : option (option (list Listed.t)) :=
  match present course_code, present group, present total_hours with
  | Some cc, Some g, Some th =>
      Some <$> alerts_rows students attendance alert_rows cc g th
  | _, _, _ => Some None
  end.

(** *** Vocabulary of the statements *)

#[global] Instance event_of_dec cc g sid a : Decision (event_of cc g sid a).
Proof. unfold event_of. apply _. Defined.

(** The hours of the attendance rows of a student in a course and group
    that read as floats, in the order of the file. *)
Definition hours_of (course_code group student_id : string)
    (attendance : list Attendance.t) : list float :=
  omap (λ a, if decide (event_of course_code group student_id a)
             then float_of_str (Attendance.hours a) else None) attendance.

(** Their sum as [sum_hours_missed] forms it: from [0.0], one [+] per row. *)
Definition total_of (hours : list float) : float :=
  foldl Float.add Float.zero hours.

(** What [compute_percentages] puts into [thresholds] for a percent. *)
Definition thresholds_text (percent : float) : string :=
  match thresholds_of percent with
  | [] => "-"
  | labels => String.concat ", " labels
  end.

(** The key of an alert row. *)
Definition key_of (a : Alert.t) : string * string * string :=
  (Alert.student_id a, Alert.course_code a, Alert.group a).

(** No two rows of the alerts file have the same key. *)
Definition unique_keys (alerts : list Alert.t) : Prop :=
  NoDup (key_of <$> alerts).

(** The flags of a row are set from the lowest tier up. *)
Definition nested_flags (a : Alert.t) : Prop :=
  (is_set (Alert.sent15 a) → is_set (Alert.sent10 a))
  ∧ (is_set (Alert.sent10 a) → is_set (Alert.sent7 a)).

(** The count of a key: that of its first row, the row [upsert_alert]
    works on; 0 without a row. *)
Definition count_of (student_id course_code group : string)
    (alerts : list Alert.t) : option Z :=
  match head (state_of student_id course_code group alerts) with
  | Some a => PyInt.int_of_str (Alert.count a)
  | None => Some 0%Z
  end.

(** Every stored count reads as an integer that is at least 1, and the
    flags of every row are nested. *)
Definition sound_row (a : Alert.t) : Prop :=
  (∃ n, PyInt.int_of_str (Alert.count a) = Some n ∧ (1 ≤ n)%Z)
  ∧ nested_flags a.

(** An alerts file as the program leaves it. *)
Definition well_formed (alerts : list Alert.t) : Prop :=
  unique_keys alerts ∧ Forall sound_row alerts.

(** The rows of a key are there and have the flag of tier 7 set. *)
Definition tier7_sent (sid cc g : string) (alerts : list Alert.t) : Prop :=
  state_of sid cc g alerts ≠ []
  ∧ Forall (λ a, is_set (Alert.sent7 a)) (state_of sid cc g alerts).

End Views.

(** ** A small course, for the examples *)

Module Example.

Local Open Scope string_scope.

Definition ali : Student.t :=
  {| Student.student_id := "S1"; Student.name := "Ali";
     Student.programme := "CS110"; Student.part := "2";
     Student.course_code := "CSC101"; Student.group := "A";
     Student.phone := "0123"; Student.email := "ali@example.org" |}.

Definition siti : Student.t :=
  {| Student.student_id := "S2"; Student.name := "Siti";
     Student.programme := "CS110"; Student.part := "2";
     Student.course_code := "CSC101"; Student.group := "A";
     Student.phone := "0456"; Student.email := "siti@example.org" |}.

(** An absence of Ali in CSC101, group A. *)
Definition absence (hours : string) : Attendance.t :=
  {| Attendance.student_id := "S1"; Attendance.name := "Ali";
     Attendance.course_code := "CSC101"; Attendance.group := "A";
     Attendance.week := "3"; Attendance.class_label := "Lecture";
     Attendance.hours := hours; Attendance.date := "2024-03-04" |}.

(** The alerts row of Ali after a first run at 7.5 percent. *)
Definition tracked : Alert.t :=
  {| Alert.student_id := "S1"; Alert.name := "Ali";
     Alert.course_code := "CSC101"; Alert.group := "A";
     Alert.percent := "7.5"; Alert.count := "1";
     Alert.sent7 := "yes"; Alert.sent10 := ""; Alert.sent15 := "" |}.

(** The row [compute_percentages] makes for Ali with 3 hours missed of 40. *)
Definition ali_row : Row.t :=
  {| Row.student_id := "S1"; Row.name := "Ali"; Row.hours_missed := Int 3;
     Row.percent := Float.of_hundredths false 750; Row.thresholds := "7%";
     Row.phone := "0123"; Row.email := "ali@example.org" |}.

(** The row it makes for Siti, who has missed nothing. *)
Definition siti_row : Row.t :=
  {| Row.student_id := "S2"; Row.name := "Siti"; Row.hours_missed := Int 0;
     Row.percent := Float.zero; Row.thresholds := "-";
     Row.phone := "0456"; Row.email := "siti@example.org" |}.

(** An SMS channel that fails, an SMTP server that refuses every
    connection and one that takes every message. *)
Definition sms_down (phone text : string) : bool * list effect := (false, []).
Definition smtp_down (i : nat) : smtp_outcome := Not_taken.
Definition smtp_up (i : nat) : smtp_outcome := Taken_confirmed.


(** The header of the students file with [part] left out, and with it. *)
Definition roster_without_part : list (list string) :=
  [ ["student_id"; "name"; "programme"; "course_code"; "group"; "phone"; "email"];
    ["S9"; "Wei"; "CS110"; "CSC101"; "A"; "0789"; "wei@example.org"] ].

Definition roster : list (list string) :=
  [ Upload.required;
    ["S9"; "Wei"; "CS110"; "2"; "CSC101"; "A"; "0789"; "wei@example.org"] ].

(** An absence of Ali whose hours read as nan. *)
Definition absence_nan : Attendance.t := absence "nan".


(** The form of an absence of 2.5 hours of Ali in CSC101, group A. *)
Definition absence_form : gmap string string :=
  list_to_map
    [("student_id", " S1 "); ("course_code", "CSC101"); ("group", "A");
     ("week", "4"); ("class_label", "Lab"); ("hours", "2.5");
     ("date", "2024-03-11")].

(** A roster whose second record has nine fields. *)
Definition roster_long : list (list string) :=
  [ Upload.required;
    ["S9"; "Wei"; "CS110"; "2"; "CSC101"; "A"; "0789"; "wei@example.org"];
    ["S8"; "Mei"; "CS110"; "2"; "CSC101"; "A"; "0788"; "mei@example.org";
     "extra"];
    ["S7"; "Raj"; "CS110"; "2"; "CSC101"; "A"; "0787"; "raj@example.org"] ].

End Example.

(** * Facts about the float operations *)

Section FloatFacts.

Local Open Scope Z_scope.

Lemma shr_1_nonneg mrs : 0 ≤ shr_m mrs → 0 ≤ shr_m (shr_1 mrs).
Proof.
  destruct mrs as [m r s]; simpl.
  destruct m as [|[p|p|]|p]; simpl; intros H; try lia.
Qed.

Lemma iter_shr_1_nonneg p mrs :
  0 ≤ shr_m mrs → 0 ≤ shr_m (SpecFloat.iter_pos shr_1 p mrs).
Proof.
  revert mrs. induction p as [p IH|p IH|]; intros mrs H; simpl.
  - apply IH, IH, shr_1_nonneg, H.
  - apply IH, IH, H.
  - apply shr_1_nonneg, H.
Qed.

Lemma shr_nonneg mrs e n : 0 ≤ shr_m mrs → 0 ≤ shr_m (fst (shr mrs e n)).
Proof.
  intros H. destruct n; simpl; auto using iter_shr_1_nonneg.
Qed.

Lemma shr_fexp_nonneg m e l :
  0 ≤ m → 0 ≤ shr_m (fst (shr_fexp Float.prec Float.emax m e l)).
Proof.
  intros H. unfold shr_fexp. apply shr_nonneg.
  destruct l as [|[]]; exact H.
Qed.

Lemma round_nearest_even_nonneg m l : 0 ≤ m → 0 ≤ round_nearest_even m l.
Proof.
  intros H. destruct l as [|[]]; simpl; try lia. destruct (Z.even m); lia.
Qed.

(** Rounding a non-negative mantissa with the sign [false] gives a zero, a
    positive number or plus infinity. *)
Lemma binary_round_aux_nonneg m e l :
  0 ≤ m →
  Float.nonneg (binary_round_aux Float.prec Float.emax false m e l) = true.
Proof.
  intros H. unfold binary_round_aux.
  pose proof (shr_fexp_nonneg m e l H) as H1.
  destruct (shr_fexp Float.prec Float.emax m e l) as [mrs' e'].
  simpl in H1.
  pose proof (shr_fexp_nonneg _ e' loc_Exact
                (round_nearest_even_nonneg _ (loc_of_shr_record mrs') H1)) as H2.
  destruct (shr_fexp _ _ (round_nearest_even _ _) e' loc_Exact) as [mrs'' e''].
  simpl in H2.
  destruct (shr_m mrs'') as [|p|p]; [reflexivity| |lia].
  destruct (e'' <=? Float.emax - Float.prec); reflexivity.
Qed.

Lemma div_core_nonneg m1 e1 m2 e2 :
  0 ≤ m1 → 0 < m2 →
  0 ≤ fst (fst (SFdiv_core_binary Float.prec Float.emax m1 e1 m2 e2)).
Proof.
  intros H1 H2. unfold SFdiv_core_binary.
  set (s := e1 - e2 - _). set (m' := match s with 0 => m1 | _ => _ end).
  assert (0 ≤ m') as Hm'.
  { subst m'. destruct s; [lia| |lia]. apply Z.shiftl_nonneg, H1. }
  pose proof (Z.div_eucl_eq m' m2 ltac:(lia)) as Heq.
  pose proof (Z.mod_pos_bound m' m2 H2) as Hmod. unfold Z.modulo in Hmod.
  destruct (Z.div_eucl m' m2) as [q r]. simpl. nia.
Qed.

Lemma nonneg_leb_zero x :
  Float.nonneg x = true → Float.leb (Float.of_Z 0) x = true.
Proof. destruct x as [s|[]| |[] m e]; intros H; try discriminate; reflexivity. Qed.

Lemma ltb_zero_positive x :
  Float.ltb (Float.of_Z 0) x = true →
  x = S754_infinity false ∨ ∃ m e, x = S754_finite false m e.
Proof.
  destruct x as [s|[]| |[] m e]; intros H; try discriminate; eauto.
Qed.

Lemma leb_zero_not_positive x :
  Float.leb x (Float.of_Z 0) = true → Float.ltb (Float.of_Z 0) x = false.
Proof. destruct x as [s|[]| |[] m e]; intros H; try discriminate; reflexivity. Qed.

Lemma div_nonneg x y :
  Float.nonneg x = true → Float.is_finite x = true →
  Float.ltb (Float.of_Z 0) y = true →
  Float.nonneg (Float.div x y) = true.
Proof.
  intros Hx Hf Hy.
  destruct (ltb_zero_positive y Hy) as [->|(my & ey & ->)];
    destruct x as [sx|sx| |sx mx ex]; try discriminate; try reflexivity.
  destruct sx; [discriminate|]. unfold Float.div, SFdiv.
  pose proof (div_core_nonneg (Z.pos mx) ex (Z.pos my) ey ltac:(lia) ltac:(lia)) as H.
  destruct (SFdiv_core_binary _ _ _ _ _ _) as [[mz ez] lz]. simpl in H.
  apply binary_round_aux_nonneg, H.
Qed.

Lemma mul_hundred_nonneg x :
  Float.nonneg x = true → Float.nonneg (Float.mul x (Float.of_Z 100)) = true.
Proof.
  destruct x as [sx|[]| |[] mx ex]; intros H; try discriminate; try reflexivity.
  unfold Float.mul. cbn [SFmul Float.of_Z]. 
  change (Float.of_Z 100) with (S754_finite false 7036874417766400 (-46)).
  cbn [SFmul xorb]. apply binary_round_aux_nonneg. lia.
Qed.

(** [round_half_even n d] is an integer nearest to [n / d], and the even
    one of the two when [n / d] lies half way between them. *)
Lemma round_half_even_nearest n d :
  0 ≤ n → 0 < d →
  let N := Float.round_half_even n d in
  0 ≤ N ∧ 2 * Z.abs (N * d - n) ≤ d
  ∧ (2 * Z.abs (N * d - n) = d → Z.even N = true).
Proof.
  intros Hn Hd. unfold Float.round_half_even.
  pose proof (Z.div_mod n d ltac:(lia)) as Heq.
  pose proof (Z.mod_pos_bound n d Hd) as Hmod.
  pose proof (Z.div_pos n d Hn Hd) as Hq.
  destruct (Z.compare_spec (2 * (n mod d)) d) as [He|Hl|Hg].
  - destruct (Z.even (n / d)) eqn:Hev.
    + repeat split; [lia|nia|auto].
    + repeat split; [lia|nia|].
      intros _. rewrite Z.even_add, Hev. reflexivity.
  - repeat split; [lia|nia|]. intros H. exfalso. nia.
  - repeat split; [lia|nia|]. intros H. exfalso. nia.
Qed.

Lemma of_hundredths_nonneg n :
  0 ≤ n → Float.nonneg (Float.of_hundredths false n) = true.
Proof.
  intros H. destruct n as [|p|p]; [reflexivity| |lia].
  unfold Float.of_hundredths, SFdiv.
  pose proof (div_core_nonneg (Z.pos p) 0 100 0 ltac:(lia) ltac:(lia)) as H'.
  destruct (SFdiv_core_binary _ _ _ _ _ _) as [[mz ez] lz]. simpl in H'.
  apply binary_round_aux_nonneg, H'.
Qed.

Lemma hundredfold_num_nonneg m e : 0 ≤ Float.hundredfold_num m e.
Proof. unfold Float.hundredfold_num. pose proof (Z.pow_nonneg 2 (Z.max 0 e)). nia. Qed.

Lemma hundredfold_den_pos e : 0 < Float.hundredfold_den e.
Proof. unfold Float.hundredfold_den. apply Z.pow_pos_nonneg; lia. Qed.

Lemma round2_nonneg x :
  Float.nonneg x = true → Float.nonneg (Float.round2 x) = true.
Proof.
  destruct x as [sx|[]| |[] mx ex]; intros H; try discriminate; try reflexivity.
  unfold Float.round2. apply of_hundredths_nonneg.
  apply round_half_even_nearest;
    auto using hundredfold_num_nonneg, hundredfold_den_pos.
Qed.

End FloatFacts.

(** * Facts about the text of integers *)

Section IntText.

Local Open Scope string_scope.

Lemma string_of_uint_digits d : PyInt.all_digits (NilEmpty.string_of_uint d) = true.
Proof. induction d; simpl; auto. Qed.

Lemma digit_not_space c : PyInt.is_digit c = true → PyInt.is_space c = false.
Proof.
  unfold PyInt.is_digit, PyInt.is_space. intros H.
  apply andb_true_iff in H as [H1 H2].
  apply Nat.leb_le in H1, H2.
  apply orb_false_iff. split.
  - apply Nat.eqb_neq. lia.
  - apply andb_false_iff. right. apply Nat.leb_gt. lia.
Qed.

Lemma digit_not_underscore c : PyInt.is_digit c = true → Ascii.eqb c "_" = false.
Proof.
  intros H. destruct (Ascii.eqb_spec c "_") as [->|]; [discriminate|reflexivity].
Qed.

Lemma rstrip_digits s : PyInt.all_digits s = true → PyInt.rstrip s = s.
Proof.
  induction s as [|c s IH]; simpl; [reflexivity|].
  intros [Hc Hs]%andb_true_iff. rewrite (IH Hs).
  destruct s; [|reflexivity]. now rewrite digit_not_space.
Qed.

Lemma strip_digits s : PyInt.all_digits s = true → PyInt.strip s = s.
Proof.
  intros H. unfold PyInt.strip.
  destruct s as [|c s]; [reflexivity|]. simpl in H.
  apply andb_true_iff in H as [Hc Hs]. cbn [PyInt.lstrip].
  rewrite (digit_not_space c Hc). apply rstrip_digits. simpl. now rewrite Hc.
Qed.

Lemma ungroup_digits b s : PyInt.all_digits s = true → PyInt.ungroup b s = Some s.
Proof.
  revert b. induction s as [|c s IH]; intros b; simpl; [reflexivity|].
  intros [Hc Hs]%andb_true_iff.
  rewrite (digit_not_underscore c Hc), (IH _ Hs). reflexivity.
Qed.

Lemma digits_of_uint (d : Decimal.uint) :
  d ≠ Decimal.Nil →
  PyInt.digits (NilEmpty.string_of_uint d) = Some (Z.of_uint d).
Proof.
  intros Hd. unfold PyInt.digits.
  rewrite ungroup_digits by apply string_of_uint_digits. simpl.
  replace (NilEmpty.string_of_uint d) with (NilZero.string_of_uint d)
    by now destruct d.
  now rewrite NilZero.usu.
Qed.

Lemma int_of_str_digits s :
  PyInt.all_digits s = true → PyInt.int_of_str s = PyInt.digits s.
Proof.
  intros H. unfold PyInt.int_of_str. rewrite (strip_digits s H).
  destruct s as [|c s]; [reflexivity|]. simpl in H.
  apply andb_true_iff in H as [Hc _].
  destruct c as [[] [] [] [] [] [] [] []]; try discriminate Hc; reflexivity.
Qed.

Lemma int_of_str_minus s :
  PyInt.all_digits s = true → s ≠ "" →
  PyInt.int_of_str (String "-" s) = Z.opp <$> PyInt.digits s.
Proof.
  intros H Hs. unfold PyInt.int_of_str, PyInt.strip.
  cbn [PyInt.lstrip]. change (PyInt.is_space "-") with false. cbn iota.
  cbn [PyInt.rstrip]. rewrite (rstrip_digits s H).
  destruct s; [done|reflexivity].
Qed.

Lemma to_uint_nonnil p : Pos.to_uint p ≠ Decimal.Nil.
Proof.
  intros H. pose proof (DecimalPos.Unsigned.of_to p) as E.
  rewrite H in E. discriminate E.
Qed.

Lemma of_uint_to_uint p : Z.of_uint (Pos.to_uint p) = Z.pos p.
Proof.
  unfold Z.of_uint. now rewrite DecimalPos.Unsigned.of_to.
Qed.

(** Reading back what [str] wrote for an integer gives the integer. *)
Lemma int_of_str_of_int (n : Z) : PyInt.int_of_str (PyInt.str_of_int n) = Some n.
Proof.
  destruct n as [|p|p]; [reflexivity| |]; unfold PyInt.str_of_int; simpl.
  - replace (NilZero.string_of_uint (Pos.to_uint p))
      with (NilEmpty.string_of_uint (Pos.to_uint p))
      by (pose proof (to_uint_nonnil p); now destruct (Pos.to_uint p)).
    rewrite int_of_str_digits by apply string_of_uint_digits.
    rewrite digits_of_uint by apply to_uint_nonnil.
    now rewrite of_uint_to_uint.
  - replace (NilZero.string_of_uint (Pos.to_uint p))
      with (NilEmpty.string_of_uint (Pos.to_uint p))
      by (pose proof (to_uint_nonnil p); now destruct (Pos.to_uint p)).
    rewrite int_of_str_minus.
    + rewrite digits_of_uint by apply to_uint_nonnil.
      now rewrite of_uint_to_uint.
    + apply string_of_uint_digits.
    + pose proof (to_uint_nonnil p). now destruct (Pos.to_uint p).
Qed.

End IntText.

(** * Facts about [upsert_alert] *)

Section UpsertFacts.

Variable str_of_float : float → string.
Local Open Scope string_scope.

Lemma filter_insert_out {A} (P : A → Prop) `{!∀ x, Decision (P x)}
    (l : list A) i x y :
  l !! i = Some x → ¬ P x → ¬ P y → filter P (<[i:=y]> l) = filter P l.
Proof.
  revert i. induction l as [|z l IH]; intros [|i] Hi Hx Hy; simplify_eq/=.
  - rewrite !filter_cons. now rewrite !decide_False by done.
  - rewrite !filter_cons. now rewrite (IH i Hi Hx Hy).
Qed.

Lemma upsert_alert_found sid name cc g percent h7 h10 h15 alerts i found n :
  list_find (alert_key sid cc g) alerts = Some (i, found) →
  PyInt.int_of_str (Alert.count found) = Some n →
  upsert_alert str_of_float sid name cc g percent h7 h10 h15 alerts =
  Some (<[i := {| Alert.student_id := Alert.student_id found;
                  Alert.name := Alert.name found;
                  Alert.course_code := Alert.course_code found;
                  Alert.group := Alert.group found;
                  Alert.percent := str_of_float percent;
                  Alert.count := PyInt.str_of_int (n + 1);
                  Alert.sent7 := if h7 then "yes" else Alert.sent7 found;
                  Alert.sent10 := if h10 then "yes" else Alert.sent10 found;
                  Alert.sent15 := if h15 then "yes" else Alert.sent15 found |}]>
          alerts).
Proof. intros Hf Hn. unfold upsert_alert. rewrite Hf. simpl. now rewrite Hn. Qed.

Lemma upsert_alert_lookup sid name cc g percent h7 h10 h15 alerts alerts' i a :
  upsert_alert str_of_float sid name cc g percent h7 h10 h15 alerts = Some alerts' →
  alerts !! i = Some a →
  ∃ a', alerts' !! i = Some a'
    ∧ Alert.student_id a' = Alert.student_id a
    ∧ Alert.course_code a' = Alert.course_code a
    ∧ Alert.group a' = Alert.group a
    ∧ (Alert.sent7 a' = Alert.sent7 a ∨ Alert.sent7 a' = "yes")
    ∧ (Alert.sent10 a' = Alert.sent10 a ∨ Alert.sent10 a' = "yes")
    ∧ (Alert.sent15 a' = Alert.sent15 a ∨ Alert.sent15 a' = "yes")
    ∧ (¬ alert_key sid cc g a → a' = a).
Proof.
  unfold upsert_alert. intros Hu Ha.
  destruct (list_find _ alerts) as [[j found]|] eqn:Hf; simplify_option_eq.
  - apply list_find_Some in Hf as (Hj & Hkey & _).
    destruct (decide (i = j)) as [->|Hne].
    + simplify_eq. eexists. split.
      { apply list_lookup_insert_eq. eapply lookup_lt_Some, Hj. }
      simpl. split_and!; auto.
      * destruct h7; auto.
      * destruct h10; auto.
      * destruct h15; auto.
      * intros Hn. destruct (Hn Hkey).
    + exists a. rewrite list_lookup_insert_ne by done. naive_solver.
  - exists a. rewrite lookup_app_l by (eapply lookup_lt_Some, Ha). naive_solver.
Qed.

Lemma upsert_alert_other_key sid name cc g percent h7 h10 h15 alerts alerts' sid' cc' g' :
  upsert_alert str_of_float sid name cc g percent h7 h10 h15 alerts = Some alerts' →
  ¬ (sid' = sid ∧ cc' = cc ∧ g' = g) →
  state_of sid' cc' g' alerts' = state_of sid' cc' g' alerts.
Proof.
  unfold upsert_alert, state_of. intros Hu Hne.
  destruct (list_find _ alerts) as [[j found]|] eqn:Hf; simplify_option_eq.
  - apply list_find_Some in Hf as (Hj & (H1 & H2 & H3) & _).
    eapply filter_insert_out; [exact Hj| |]; unfold alert_key; simpl;
      intros (E1 & E2 & E3); apply Hne; split_and!; congruence.
  - rewrite filter_app, filter_cons, decide_False, filter_nil, app_nil_r; [done|].
    unfold alert_key. simpl. intros (E1 & E2 & E3). apply Hne. done.
Qed.

Lemma upsert_alert_has_key sid name cc g percent h7 h10 h15 alerts alerts' :
  upsert_alert str_of_float sid name cc g percent h7 h10 h15 alerts = Some alerts' →
  ∃ a, a ∈ alerts' ∧ alert_key sid cc g a.
Proof.
  unfold upsert_alert. intros Hu.
  destruct (list_find _ alerts) as [[j found]|] eqn:Hf; simplify_option_eq.
  - apply list_find_Some in Hf as (Hj & (H1 & H2 & H3) & _).
    eexists. split.
    + apply list_elem_of_lookup. exists j.
      apply list_lookup_insert_eq. eapply lookup_lt_Some, Hj.
    + done.
  - eexists. split; [apply elem_of_app; right; apply list_elem_of_singleton; done|].
    done.
Qed.

Lemma upsert_alert_total sid name cc g percent h7 h10 h15 alerts :
  Forall count_ok alerts →
  ∃ alerts', upsert_alert str_of_float sid name cc g percent h7 h10 h15 alerts
             = Some alerts' ∧ Forall count_ok alerts'.
Proof.
  intros Hall. unfold upsert_alert.
  destruct (list_find _ alerts) as [[j found]|] eqn:Hf.
  - apply list_find_Some in Hf as (Hj & _).
    destruct (proj1 (Forall_lookup _ _) Hall j found Hj) as [n Hn].
    rewrite Hn. simpl. eexists. split; [done|].
    apply Forall_insert; [done|]. unfold count_ok. simpl.
    rewrite int_of_str_of_int. done.
  - eexists. split; [done|]. apply Forall_app. split; [done|].
    apply Forall_singleton. unfold count_ok. simpl. done.
Qed.

End UpsertFacts.

(** * Facts about the loop of [send_alerts] *)

Section LoopFacts.

Variable str_of_float : float → string.
Variable sms : string → string → bool * list effect.
Variable server : nat → smtp_outcome.
Variables cc g : string.

Local Abbreviation loop := (alert_loop str_of_float sms server cc g).
Local Abbreviation picked := (processed str_of_float sms server cc).
Local Abbreviation notify := (notification str_of_float sms cc).
Local Abbreviation notified := (notifications str_of_float sms server cc).

Lemma alert_loop_cons r target i alerts count :
  loop (r :: target) i alerts count =
  let rest :=
    if channel_ok str_of_float sms server cc i r then
      match reconcile str_of_float cc g r alerts with
      | Some alerts' => loop target (S i) alerts' (S count)
      | None => {| run_alerts := alerts; run_log := []; sent_count := None |}
      end
    else loop target (S i) alerts count in
  {| run_alerts := run_alerts rest;
     run_log := notify (server i) r ++ run_log rest;
     sent_count := sent_count rest |}.
Proof.
  cbn [alert_loop].
  unfold channel_ok, notification, email_of, reconcile, send_email.
  destruct (sms _ _) as [ok_sms printed]. by destruct (server i).
Qed.

(** A run that reconciles every processed row ends with their
    reconciliation, the notifications of all its rows, and their number. *)
Lemma alert_loop_reconciled target i alerts count alerts' :
  reconcile_all str_of_float cc g (picked target i) alerts = Some alerts' →
  loop target i alerts count =
  {| run_alerts := alerts';
     run_log := notified target i;
     sent_count := Some (count + length (picked target i)) |}.
Proof.
  revert i alerts count.
  induction target as [|r target IH]; intros i alerts count Hall.
  - simpl in *. simplify_eq. by rewrite Nat.add_0_r.
  - rewrite alert_loop_cons. cbn [processed] in Hall |- *. cbn zeta.
    destruct (channel_ok _ _ _ _ _ _).
    + cbn [reconcile_all] in Hall.
      destruct (reconcile _ _ _ _ _) as [alerts1|]; [|done]. simpl in Hall.
      rewrite (IH _ _ _ Hall). simpl. rewrite Nat.add_succ_r. reflexivity.
    + rewrite (IH _ _ _ Hall). reflexivity.
Qed.

(** A run that reports a count has reconciled every processed row. *)
Lemma alert_loop_completed target i alerts count k :
  sent_count (loop target i alerts count) = Some k →
  reconcile_all str_of_float cc g (picked target i) alerts
  = Some (run_alerts (loop target i alerts count)).
Proof.
  revert i alerts count.
  induction target as [|r target IH]; intros i alerts count Hk.
  - reflexivity.
  - rewrite alert_loop_cons in Hk |- *. cbn [processed]. cbn zeta in *.
    destruct (channel_ok _ _ _ _ _ _).
    + cbn [reconcile_all].
      destruct (reconcile _ _ _ _ _) as [alerts1|]; [|done]. simpl in *.
      eauto.
    + simpl in *. eauto.
Qed.

(** A run leaves the rows of a student alone when no row processed in it
    is the student's, also when an exception ends it. *)
Lemma alert_loop_state_of target i alerts count sid :
  (∀ r, r ∈ picked target i → Row.student_id r ≠ sid) →
  state_of sid cc g (run_alerts (loop target i alerts count))
  = state_of sid cc g alerts.
Proof.
  revert i alerts count.
  induction target as [|r target IH]; intros i alerts count Hsid.
  - reflexivity.
  - rewrite alert_loop_cons. cbn [processed] in Hsid. cbn zeta.
    destruct (channel_ok _ _ _ _ _ _).
    + destruct (reconcile _ _ _ _ _) as [alerts1|] eqn:Hr; [|done]. simpl.
      rewrite IH by (intros r' Hr'; apply Hsid; by right).
      eapply upsert_alert_other_key; [exact Hr|].
      intros (E & _). eapply Hsid; [by left|done].
    + simpl. apply IH. done.
Qed.

Lemma reconcile_all_total rows alerts :
  Forall count_ok alerts →
  ∃ alerts', reconcile_all str_of_float cc g rows alerts = Some alerts'
             ∧ Forall count_ok alerts'.
Proof.
  revert alerts. induction rows as [|r rows IH]; intros alerts Hok.
  - by exists alerts.
  - cbn [reconcile_all]. unfold reconcile.
    destruct (upsert_alert_total str_of_float (Row.student_id r) (Row.name r)
                cc g (Row.percent r)
                (Float.leb (Float.of_Z 7) (Row.percent r))
                (Float.leb (Float.of_Z 10) (Row.percent r))
                (Float.leb (Float.of_Z 15) (Row.percent r)) alerts Hok)
      as (alerts1 & -> & Hok1).
    simpl. apply IH, Hok1.
Qed.

(** Reconciling keeps a row for every key that has one. *)
Lemma upsert_alert_keeps_key sid name cc' g' percent h7 h10 h15 alerts alerts'
    sid0 cc0 g0 :
  upsert_alert str_of_float sid name cc' g' percent h7 h10 h15 alerts
  = Some alerts' →
  (∃ a, a ∈ alerts ∧ alert_key sid0 cc0 g0 a) →
  ∃ a, a ∈ alerts' ∧ alert_key sid0 cc0 g0 a.
Proof.
  intros Hu (a & [i Hi]%list_elem_of_lookup & H1 & H2 & H3).
  destruct (upsert_alert_lookup _ _ _ _ _ _ _ _ _ _ _ _ _ Hu Hi)
    as (a' & Hi' & E1 & E2 & E3 & _).
  exists a'. split; [apply list_elem_of_lookup; eauto|].
  unfold alert_key. split_and!; congruence.
Qed.

Lemma reconcile_all_has_key rows alerts alerts' sid :
  reconcile_all str_of_float cc g rows alerts = Some alerts' →
  ((∃ a, a ∈ alerts ∧ alert_key sid cc g a)
   ∨ ∃ r, r ∈ rows ∧ Row.student_id r = sid) →
  ∃ a, a ∈ alerts' ∧ alert_key sid cc g a.
Proof.
  revert alerts. induction rows as [|r rows IH]; intros alerts Hall Hor.
  - simpl in Hall. simplify_eq. destruct Hor as [H|(r & Hr & _)]; [done|].
    by apply elem_of_nil in Hr.
  - cbn [reconcile_all] in Hall.
    destruct (reconcile _ _ _ _ _) as [alerts1|] eqn:Hr; [|done].
    simpl in Hall. apply (IH _ Hall).
    destruct Hor as [H|(r' & [->|Hin]%elem_of_cons & Hsid)].
    + left. eapply upsert_alert_keeps_key; [exact Hr|exact H].
    + left. subst sid. eapply upsert_alert_has_key, Hr.
    + right. eauto.
Qed.

(** A run that reports a count reports the number of the processed rows. *)
Lemma alert_loop_counts target i alerts count k :
  sent_count (loop target i alerts count) = Some k →
  k = (count + length (picked target i))%nat.
Proof.
  intros Hk. pose proof (alert_loop_completed _ _ _ _ _ Hk) as Hall.
  rewrite (alert_loop_reconciled _ _ _ count _ Hall) in Hk.
  simpl in Hk. congruence.
Qed.

(** A run ends normally when every stored count reads as an integer. *)
Lemma alert_loop_total target i alerts count :
  Forall count_ok alerts →
  sent_count (loop target i alerts count)
  = Some (count + length (picked target i))%nat.
Proof.
  intros Hok.
  destruct (reconcile_all_total (picked target i) alerts Hok)
    as (alerts' & Hall & _).
  by rewrite (alert_loop_reconciled _ _ _ count _ Hall).
Qed.

End LoopFacts.

(** * Facts about sequences of reconciliations *)

Section Ratchet.

Variable str_of_float : float → string.

Lemma reconciliations_lookup alerts alerts' i a :
  reconciliations str_of_float alerts alerts' →
  alerts !! i = Some a →
  ∃ a', alerts' !! i = Some a'
    ∧ Alert.student_id a' = Alert.student_id a
    ∧ Alert.course_code a' = Alert.course_code a
    ∧ Alert.group a' = Alert.group a
    ∧ (is_set (Alert.sent7 a) → is_set (Alert.sent7 a'))
    ∧ (is_set (Alert.sent10 a) → is_set (Alert.sent10 a'))
    ∧ (is_set (Alert.sent15 a) → is_set (Alert.sent15 a')).
Proof.
  intros Hrec. revert a.
  induction Hrec as [alerts|alerts alerts1 alerts2 sid name cc g p h7 h10 h15 Hu _ IH];
    intros a Ha.
  - exists a. by split_and!.
  - destruct (upsert_alert_lookup _ _ _ _ _ _ _ _ _ _ _ _ _ Hu Ha)
      as (a1 & Ha1 & E1 & E2 & E3 & F7 & F10 & F15 & _).
    destruct (IH a1 Ha1) as (a2 & Ha2 & G1 & G2 & G3 & K7 & K10 & K15).
    exists a2. unfold is_set in *.
    split_and!; try congruence.
    + intros H. apply K7. destruct F7; congruence.
    + intros H. apply K10. destruct F10; congruence.
    + intros H. apply K15. destruct F15; congruence.
Qed.

(** The reconciliations of a run of [send_alerts] are such a sequence. *)
Lemma reconcile_all_reconciliations cc g rows alerts alerts' :
  reconcile_all str_of_float cc g rows alerts = Some alerts' →
  reconciliations str_of_float alerts alerts'.
Proof.
  revert alerts. induction rows as [|r rows IH]; intros alerts Hall.
  - simpl in Hall. simplify_eq. constructor.
  - cbn [reconcile_all] in Hall.
    destruct (reconcile _ _ _ _ _) as [alerts1|] eqn:Hr; [|done].
    simpl in Hall. eapply reconciliations_cons; [exact Hr|]. eauto.
Qed.

End Ratchet.

(** * Facts about aggregation and percentages *)

Section PercentFacts.

Variable float_of_str : string → option float.

Arguments Float.ltb : simpl never.
Arguments Float.of_Z : simpl never.
Arguments Float.round2 : simpl never.
Arguments Float.mul : simpl never.
Arguments Float.div : simpl never.

Lemma leb_zero_nonneg x :
  Float.leb (Float.of_Z 0) x = true → Float.nonneg x = true.
Proof. destruct x as [s|[]| |[] m e]; intros H; try discriminate; reflexivity. Qed.

Lemma percent_of_not_positive hm total_hours th :
  float_of_str total_hours = Some th →
  Float.ltb (Float.of_Z 0) th = false →
  percent_of float_of_str hm total_hours = Some Float.zero.
Proof. intros Hth Hle. unfold percent_of. rewrite Hth. simpl. by rewrite Hle. Qed.

Lemma percent_of_positive hm total_hours th :
  float_of_str total_hours = Some th →
  Float.ltb (Float.of_Z 0) th = true →
  percent_of float_of_str hm total_hours
  = Some (Float.round2 (Float.mul (Float.div hm th) (Float.of_Z 100))).
Proof. intros Hth Hlt. unfold percent_of. rewrite Hth. simpl. by rewrite Hlt. Qed.

(** No hours missed is zero percent whatever the total. *)
Lemma percent_of_zero total_hours th :
  float_of_str total_hours = Some th →
  percent_of float_of_str Float.zero total_hours = Some Float.zero.
Proof.
  intros Hth. destruct (Float.ltb (Float.of_Z 0) th) eqn:Hlt.
  - rewrite (percent_of_positive _ _ _ Hth Hlt).
    destruct (ltb_zero_positive th Hlt) as [->|(m & e & ->)]; reflexivity.
  - by apply percent_of_not_positive with th.
Qed.

Lemma sum_hours_loop_total attendance cc g missed :
  Forall (hours_ok float_of_str cc g) attendance →
  is_Some (sum_hours_loop float_of_str attendance cc g missed).
Proof.
  revert missed. induction attendance as [|a attendance IH]; intros missed Hok.
  - by eexists.
  - apply Forall_cons in Hok as [Ha Hok]. cbn [sum_hours_loop].
    destruct (bool_decide (Attendance.course_code a = cc)) eqn:Hc;
      [|by apply IH].
    destruct (bool_decide (Attendance.group a = g)) eqn:Hg; [|by apply IH].
    apply bool_decide_eq_true in Hc, Hg. cbn [andb].
    destruct (Ha Hc Hg) as [hrs Hhrs]. rewrite Hhrs. simpl. by apply IH.
Qed.

(** A student is missing from the dictionary exactly when no attendance
    row of the course and group is the student's. *)
Lemma sum_hours_loop_lookup_None attendance cc g missed missed' sid :
  sum_hours_loop float_of_str attendance cc g missed = Some missed' →
  missed' !! sid = None ↔
  missed !! sid = None ∧ ∀ a, a ∈ attendance → ¬ event_of cc g sid a.
Proof.
  revert missed. induction attendance as [|a attendance IH]; intros missed Hsum.
  - simpl in Hsum. simplify_eq. split; [|by intros []].
    intros H. split; [done|]. by intros a ?%elem_of_nil.
  - cbn [sum_hours_loop] in Hsum.
    destruct (bool_decide (Attendance.course_code a = cc)) eqn:Hc;
      [destruct (bool_decide (Attendance.group a = g)) eqn:Hg|];
      cbn [andb] in Hsum.
    + apply bool_decide_eq_true in Hc, Hg.
      destruct (float_of_str (Attendance.hours a)) as [hrs|]; [|done].
      simpl in Hsum. rewrite (IH _ Hsum). split.
      * intros [Hins Hrest].
        apply lookup_insert_None in Hins as [Hm Hne]. split; [done|].
        intros a' [->|Hin]%elem_of_cons; [|by apply Hrest].
        intros (_ & _ & E). done.
      * intros [Hm Hall]. split; [|intros a' Hin; apply Hall; by right].
        apply lookup_insert_None. split; [done|].
        intros E. apply (Hall a); [by left|done].
    + apply bool_decide_eq_true in Hc. apply bool_decide_eq_false in Hg.
      rewrite (IH _ Hsum). split; intros [Hm Hall]; (split; [done|]).
      * intros a' [->|Hin]%elem_of_cons; [|by apply Hall].
        intros (_ & E & _). done.
      * intros a' Hin. apply Hall. by right.
    + apply bool_decide_eq_false in Hc.
      rewrite (IH _ Hsum). split; intros [Hm Hall]; (split; [done|]).
      * intros a' [->|Hin]%elem_of_cons; [|by apply Hall].
        intros (E & _). done.
      * intros a' Hin. apply Hall. by right.
Qed.

Lemma row_of_Some missed total_hours s r :
  row_of float_of_str missed total_hours s = Some r →
  Row.student_id r = Student.student_id s
  ∧ percent_of float_of_str (default Float.zero (missed !! Student.student_id s))
      total_hours = Some (Row.percent r)
  ∧ Row.hours_missed r
    = shown_hours (default Float.zero (missed !! Student.student_id s)).
Proof.
  unfold row_of. intros H.
  destruct (percent_of _ _ _) as [percent|]; [|done].
  simpl in H. by simplify_eq.
Qed.

Lemma row_of_total missed total_hours th s :
  float_of_str total_hours = Some th →
  is_Some (row_of float_of_str missed total_hours s).
Proof.
  intros Hth. unfold row_of, percent_of. rewrite Hth. simpl.
  destruct (Float.ltb _ _); by eexists.
Qed.

End PercentFacts.

(** * The percentage calculator *)

Section Percentages.

Variable float_of_str : string → option float.

Arguments Float.ltb : simpl never.
Arguments Float.leb : simpl never.
Arguments Float.of_Z : simpl never.
Arguments Float.round2 : simpl never.
Arguments Float.mul : simpl never.
Arguments Float.div : simpl never.

(** Claim C4, as the code has it. For a total above zero and finite hours missed
    that are not negative, [compute_percentages] computes the percent as
    [hours_missed / total * 100] in float arithmetic, rounded to two
    decimals: the hundredth nearest to the exact value of that float, the
    even one when the value lies half way between two hundredths (not the
    upper one). The percent is not negative, and nothing holds it at 100:
    50 hours missed of 40 give 125.0. *)
Theorem percent_of_rounds_ties_to_even (hours_missed th : float)
    (total_hours : string) :
  float_of_str total_hours = Some th →
  Float.ltb (Float.of_Z 0) th = true →
  Float.is_finite hours_missed = true →
  Float.leb (Float.of_Z 0) hours_missed = true →
  ∃ percent,
    percent_of float_of_str hours_missed total_hours = Some percent
    ∧ Float.leb (Float.of_Z 0) percent = true
    ∧ match Float.mul (Float.div hours_missed th) (Float.of_Z 100) with
      | S754_finite s m e =>
          ∃ N, Float.nearest_tie_even (Float.hundredfold_num m e)
                 (Float.hundredfold_den e) N
               ∧ percent = Float.of_hundredths s N
      | x => percent = x
      end
    ∧ ∀ forty, float_of_str forty = Some (Float.of_Z 40) →
        percent_of float_of_str (Float.of_Z 50) forty = Some (Float.of_Z 125)
        ∧ Float.ltb (Float.of_Z 100) (Float.of_Z 125) = true.
Proof.
  intros Hth Hlt Hfin Hhm.
  rewrite (percent_of_positive _ _ _ _ Hth Hlt).
  eexists. split; [reflexivity|]. split_and!.
  - apply nonneg_leb_zero, round2_nonneg, mul_hundred_nonneg.
    apply div_nonneg; auto using leb_zero_nonneg.
  - destruct (Float.mul _ _) as [s|s| |s m e]; try reflexivity.
    eexists. split; [|reflexivity].
    apply round_half_even_nearest;
      auto using hundredfold_num_nonneg, hundredfold_den_pos.
  - intros forty Hforty.
    rewrite (percent_of_positive _ _ _ _ Hforty) by reflexivity.
    split; reflexivity.
Qed.

(** Claim C5. For a total that is zero or below, the percent is 0.0 whatever
    the hours missed, and [compute_percentages] returns its rows, every one
    with percent 0.0, as soon as the aggregation raises nothing. *)
Theorem percent_of_nonpositive_total (th : float) (total_hours : string) :
  float_of_str total_hours = Some th →
  Float.leb th (Float.of_Z 0) = true →
  (∀ hours_missed,
     percent_of float_of_str hours_missed total_hours = Some Float.zero)
  ∧ ∀ students attendance cc g,
      Forall (hours_ok float_of_str cc g) attendance →
      ∃ rows,
        compute_percentages float_of_str students attendance cc g total_hours
        = Some rows
        ∧ length rows = length (filter (enrolled cc g) students)
        ∧ Forall (λ r, Row.percent r = Float.zero) rows.
Proof.
  intros Hth Hle. apply leb_zero_not_positive in Hle.
  split; [intros hm; by apply percent_of_not_positive with th|].
  intros students attendance cc g Hok. unfold compute_percentages.
  destruct (sum_hours_loop_total float_of_str attendance cc g ∅ Hok)
    as [missed Hmissed].
  unfold sum_hours_missed. rewrite Hmissed. simpl.
  destruct (mapM_is_Some_2 (row_of float_of_str missed total_hours)
              (filter (enrolled cc g) students)) as [rows Hrows].
  { apply Forall_forall. intros s _. by eapply row_of_total. }
  exists rows. split; [done|]. split.
  { symmetry. by eapply length_mapM. }
  apply mapM_Some in Hrows. apply Forall_forall. intros r Hr.
  apply list_elem_of_lookup in Hr as [i Hi].
  destruct (Forall2_lookup_r _ _ _ _ _ Hrows Hi) as (s & _ & Hs).
  apply row_of_Some in Hs as (_ & Hp & _).
  rewrite (percent_of_not_positive _ _ _ _ Hth Hle) in Hp. congruence.
Qed.

(** Claim C8. [compute_percentages] returns a row for every student enrolled
    in the course and group, in the order of the students file; a student
    without an attendance row of the course and group is missing from the
    dictionary of [sum_hours_missed] and has a row all the same, with 0
    hours missed and percent 0.0. *)
Theorem compute_percentages_row_per_enrolled (students : list Student.t)
    (attendance : list Attendance.t) (cc g total_hours : string) (th : float) :
  float_of_str total_hours = Some th →
  Forall (hours_ok float_of_str cc g) attendance →
  ∃ missed rows,
    sum_hours_missed float_of_str attendance cc g = Some missed
    ∧ compute_percentages float_of_str students attendance cc g total_hours
      = Some rows
    ∧ Row.student_id <$> rows
      = Student.student_id <$> filter (enrolled cc g) students
    ∧ (∀ sid, missed !! sid = None
              ↔ ∀ a, a ∈ attendance → ¬ event_of cc g sid a)
    ∧ ∀ r, r ∈ rows →
        (∀ a, a ∈ attendance → ¬ event_of cc g (Row.student_id r) a) →
        Row.hours_missed r = Int 0 ∧ Row.percent r = Float.zero.
Proof.
  intros Hth Hok. unfold compute_percentages, sum_hours_missed.
  destruct (sum_hours_loop_total float_of_str attendance cc g ∅ Hok)
    as [missed Hmissed].
  rewrite Hmissed. simpl.
  destruct (mapM_is_Some_2 (row_of float_of_str missed total_hours)
              (filter (enrolled cc g) students)) as [rows Hrows].
  { apply Forall_forall. intros s _. by eapply row_of_total. }
  exists missed, rows. split_and!; try done.
  - apply mapM_Some in Hrows. clear -Hrows.
    induction Hrows as [|s r l k Hs _ IH]; [done|].
    apply row_of_Some in Hs as (E & _). csimpl. by rewrite E, IH.
  - intros sid.
    rewrite (sum_hours_loop_lookup_None _ _ _ _ _ _ sid Hmissed).
    rewrite lookup_empty. tauto.
  - intros r Hr Hnone. apply mapM_Some in Hrows.
    apply list_elem_of_lookup in Hr as [i Hi].
    destruct (Forall2_lookup_r _ _ _ _ _ Hrows Hi) as (s & _ & Hs).
    apply row_of_Some in Hs as (Hsid & Hp & Hh).
    assert (missed !! Student.student_id s = None) as Hm.
    { apply (sum_hours_loop_lookup_None _ _ _ _ _ _ _ Hmissed).
      rewrite lookup_empty, <-Hsid. done. }
    rewrite Hm in Hp, Hh. simpl in Hp, Hh.
    rewrite (percent_of_zero _ _ _ Hth) in Hp. split; [done|congruence].
Qed.

End Percentages.

(** * The alert state *)

Section AlertState.

Variable str_of_float : float → string.

Local Open Scope string_scope.

(** Claim C6. A flag that is set in a row of the alerts file is set in that row
    after any number of calls of [upsert_alert], whatever percent and
    tiers they are called with; the row keeps its place and its key. *)
Theorem reconciliations_keep_flags (alerts alerts' : list Alert.t) (i : nat)
    (a : Alert.t) :
  reconciliations str_of_float alerts alerts' →
  alerts !! i = Some a →
  ∃ a', alerts' !! i = Some a'
    ∧ Alert.student_id a' = Alert.student_id a
    ∧ Alert.course_code a' = Alert.course_code a
    ∧ Alert.group a' = Alert.group a
    ∧ (is_set (Alert.sent7 a) → is_set (Alert.sent7 a'))
    ∧ (is_set (Alert.sent10 a) → is_set (Alert.sent10 a'))
    ∧ (is_set (Alert.sent15 a) → is_set (Alert.sent15 a')).
Proof. apply reconciliations_lookup. Qed.

(** Claim C7. When the alerts file has a row for the key, with a count
    that reads as an integer, [upsert_alert] changes the first such row
    and no other: its percent becomes the text of the percent it is called
    with, whatever was stored, and its count the stored count plus one,
    whatever tiers are hit. When the file has
    no row for the key, a row with count 1 and that percent is added at
    the end. *)
Theorem upsert_alert_overwrites_percent_increments_count
    (sid name cc g : string) (percent : float) (h7 h10 h15 : bool)
    (alerts : list Alert.t) :
  (∀ i found n,
     alerts !! i = Some found →
     alert_key sid cc g found →
     (∀ j y, alerts !! j = Some y → (j < i)%nat → ¬ alert_key sid cc g y) →
     PyInt.int_of_str (Alert.count found) = Some n →
     ∃ a', upsert_alert str_of_float sid name cc g percent h7 h10 h15 alerts
           = Some (<[i := a']> alerts)
       ∧ Alert.percent a' = str_of_float percent
       ∧ Alert.count a' = PyInt.str_of_int (n + 1)
       ∧ PyInt.int_of_str (Alert.count a') = Some (n + 1)%Z
       ∧ alert_key sid cc g a')
  ∧ ((∀ a, a ∈ alerts → ¬ alert_key sid cc g a) →
     ∃ a', upsert_alert str_of_float sid name cc g percent h7 h10 h15 alerts
           = Some (alerts ++ [a'])%list
       ∧ Alert.percent a' = str_of_float percent
       ∧ Alert.count a' = "1"
       ∧ PyInt.int_of_str (Alert.count a') = Some 1%Z
       ∧ alert_key sid cc g a').
Proof.
  split.
  - intros i found n Hi Hkey Hfirst Hn.
    assert (list_find (alert_key sid cc g) alerts = Some (i, found)) as Hf.
    { apply list_find_Some. done. }
    rewrite (upsert_alert_found _ _ _ _ _ _ _ _ _ _ _ _ _ Hf Hn).
    eexists. split; [reflexivity|]. simpl.
    split_and!; [done|done|apply int_of_str_of_int|exact Hkey].
  - intros Hnone.
    assert (list_find (alert_key sid cc g) alerts = None) as Hf.
    { apply list_find_None, Forall_forall. exact Hnone. }
    unfold upsert_alert. rewrite Hf.
    eexists. split; [reflexivity|]. simpl. by split_and!.
Qed.

End AlertState.

(** * Sending alerts *)

Section SendAlerts.

Variable float_of_str : string → option float.
Variable str_of_float : float → string.

Local Open Scope string_scope.

Lemma elem_of_processed sms server cc target i0 r :
  r ∈ processed str_of_float sms server cc target i0 ↔
  ∃ i, target !! i = Some r
       ∧ channel_ok str_of_float sms server cc (i0 + i) r = true.
Proof.
  revert i0. induction target as [|r' target IH]; intros i0; cbn [processed].
  - split; [by intros ?%elem_of_nil|by intros (i & ? & _)].
  - assert (r ∈ processed str_of_float sms server cc target (S i0) ↔
            ∃ i, (r' :: target) !! S i = Some r
                 ∧ channel_ok str_of_float sms server cc (i0 + S i) r = true)
      as Htail.
    { rewrite IH. by setoid_rewrite Nat.add_succ_r. }
    destruct (channel_ok _ _ _ _ i0 r') eqn:Hok.
    + rewrite elem_of_cons, Htail. split.
      * intros [->|(i & Hi & Hc)]; [|by exists (S i)].
        exists 0%nat. by rewrite Nat.add_0_r.
      * intros ([|i] & Hi & Hc); [left; by simplify_eq/=|right; eauto].
    + rewrite Htail. split; [intros (i & ? & ?); by exists (S i)|].
      intros ([|i] & Hi & Hc); [|eauto].
      simplify_eq/=. rewrite Nat.add_0_r in Hc. congruence.
Qed.

(** With [send_sms_stub] as the SMS channel every row is processed. *)
Lemma processed_sms_stub server cc target i :
  processed str_of_float send_sms_stub server cc target i = target.
Proof.
  revert i. induction target as [|r target IH]; intros i; [done|].
  cbn [processed]. unfold channel_ok. cbn [send_sms_stub fst].
  rewrite orb_true_r. by rewrite IH.
Qed.


(** Claim C3. In the loop of [send_alerts], run with any two channels, a row
    is processed exactly when the email or the SMS channel reports success
    for it; a run that ends normally counts the processed rows and has
    reconciled them and no others, and it ends normally when every stored
    count reads as an integer. A student for whose rows both channels fail
    has the same rows in the alerts file after the run as before, also
    when an exception ends the run. *)
Theorem alert_loop_reconciles_iff_channel_ok
    (sms : string → string → bool * list effect) (server : nat → smtp_outcome)
    (cc g : string) (target : list Row.t) (alerts : list Alert.t) :
  let run := alert_loop str_of_float sms server cc g target 0 alerts 0 in
  let done := processed str_of_float sms server cc target 0 in
  (∀ r, r ∈ done ↔
        ∃ i, target !! i = Some r
             ∧ (email_ok (server i)
                || fst (sms (Row.phone r)
                          (sms_text str_of_float (Row.name r) cc (Row.percent r)))
                = true))
  ∧ (∀ k, sent_count run = Some k →
          k = length done
          ∧ reconcile_all str_of_float cc g done alerts = Some (run_alerts run))
  ∧ (Forall count_ok alerts → sent_count run = Some (length done))
  ∧ ∀ sid,
      (∀ i r, target !! i = Some r → Row.student_id r = sid →
              email_ok (server i) = false
              ∧ fst (sms (Row.phone r)
                       (sms_text str_of_float (Row.name r) cc (Row.percent r)))
                = false) →
      state_of sid cc g (run_alerts run) = state_of sid cc g alerts.
Proof.
  intros run done. subst run done. split_and!.
  - intros r. apply (elem_of_processed sms server cc target 0 r).
  - intros k Hk. split.
    + apply (alert_loop_counts _ _ _ _ _ _ _ _ _ _ Hk).
    + apply (alert_loop_completed _ _ _ _ _ _ _ _ _ _ Hk).
  - apply (alert_loop_total str_of_float sms server cc g target 0 alerts 0).
  - intros sid Hfail. apply alert_loop_state_of.
    intros r (i & Hi & Hc)%elem_of_processed Hsid.
    destruct (Hfail i r Hi Hsid) as [H1 H2].
    unfold channel_ok in Hc. simpl in Hc. rewrite H1, H2 in Hc. done.
Qed.

(** Claim C10. [send_sms_stub] reports success whatever it is given, so
    [send_alerts] processes every selected row of the computed
    percentages, whatever the SMTP server answers: a run that ends
    normally counts all of them and has called [upsert_alert] for each, in
    order, and it ends normally when every stored count reads as an
    integer. *)
Theorem send_alerts_always_processed :
  (∀ phone text, fst (send_sms_stub phone text) = true)
  ∧ ∀ (server : nat → smtp_outcome) students attendance alerts cc g
      total_hours
      selected computed,
      compute_percentages float_of_str students attendance cc g total_hours
      = Some computed →
      let target := filter (λ r, Row.student_id r ∈ selected) computed in
      let run := send_alerts float_of_str str_of_float server students
                   attendance alerts cc g total_hours selected in
      processed str_of_float send_sms_stub server cc target 0 = target
      ∧ (∀ k, sent_count run = Some k →
              k = length target
              ∧ reconcile_all str_of_float cc g target alerts
                = Some (run_alerts run))
      ∧ (Forall count_ok alerts → sent_count run = Some (length target)).
Proof.
  split; [reflexivity|].
  intros server students attendance alerts cc g total_hours selected computed
    Hc target run.
  assert (run = alert_loop str_of_float send_sms_stub server cc g target 0
                  alerts 0) as ->.
  { unfold run, send_alerts. by rewrite Hc. }
  split_and!.
  - apply processed_sms_stub.
  - intros k Hk. split.
    + rewrite (alert_loop_counts _ _ _ _ _ _ _ _ _ _ Hk).
      by rewrite processed_sms_stub.
    + rewrite <-(alert_loop_completed _ _ _ _ _ _ _ _ _ _ Hk).
      by rewrite processed_sms_stub.
  - intros Hok. rewrite (alert_loop_total _ _ _ _ _ _ _ _ _ Hok).
    by rewrite processed_sms_stub.
Qed.


(** Claim C2, as the code has it. After a run of [send_alerts] that starts
    from an alerts file without a row for a student, the file has a row
    for the student exactly when the student is selected and among the
    computed percentages, whatever the percent, below 7 included. The
    row made for the only selected student has count 1, the text of the
    percent, and [yes] for the tiers the percent reaches, the empty string
    for the others. *)
Theorem send_alerts_record_iff_selected (server : nat → smtp_outcome)
    (students : list Student.t) (attendance : list Attendance.t)
    (alerts : list Alert.t) (cc g total_hours : string)
    (selected : list string) (computed : list Row.t) :
  compute_percentages float_of_str students attendance cc g total_hours
  = Some computed →
  Forall count_ok alerts →
  let target := filter (λ r, Row.student_id r ∈ selected) computed in
  let run := send_alerts float_of_str str_of_float server students attendance
               alerts cc g total_hours selected in
  (∀ sid, state_of sid cc g alerts = [] →
     (state_of sid cc g (run_alerts run) ≠ []
      ↔ ∃ r, r ∈ target ∧ Row.student_id r = sid))
  ∧ ∀ r, target = [r] → state_of (Row.student_id r) cc g alerts = [] →
      run_alerts run
      = (alerts ++
         [ {| Alert.student_id := Row.student_id r;
              Alert.name := Row.name r;
              Alert.course_code := cc;
              Alert.group := g;
              Alert.percent := str_of_float (Row.percent r);
              Alert.count := "1";
              Alert.sent7 :=
                if Float.leb (Float.of_Z 7) (Row.percent r) then "yes" else "";
              Alert.sent10 :=
                if Float.leb (Float.of_Z 10) (Row.percent r) then "yes" else "";
              Alert.sent15 :=
                if Float.leb (Float.of_Z 15) (Row.percent r) then "yes" else ""
           |} ])%list.
Proof.
  intros Hc Hok target run.
  assert (run = alert_loop str_of_float send_sms_stub server cc g target 0
                  alerts 0) as ->.
  { unfold run, send_alerts. by rewrite Hc. }
  split.
  - intros sid Hnone. split.
    + intros Hsome.
      destruct (decide (Exists (λ r, Row.student_id r = sid) target))
        as [(r & Hr & Hsid)%Exists_exists|Hno]; [eauto|].
      destruct Hsome. rewrite alert_loop_state_of; [done|].
      intros r Hr Hsid. apply Hno, Exists_exists. exists r.
      by rewrite processed_sms_stub in Hr.
    + intros Hex.
      destruct (reconcile_all_total str_of_float cc g
                  (processed str_of_float send_sms_stub server cc target 0)
                  alerts Hok) as (alerts' & Hall & _).
      rewrite (alert_loop_reconciled _ _ _ _ _ _ _ _ 0%nat _ Hall). simpl.
      rewrite processed_sms_stub in Hall.
      destruct (reconcile_all_has_key _ _ _ _ _ _ sid Hall (or_intror Hex))
        as (a & Ha & Hkey).
      intros Hnil. assert (a ∈ state_of sid cc g alerts') as Hin.
      { apply list_elem_of_filter. done. }
      rewrite Hnil in Hin. by apply elem_of_nil in Hin.
  - intros r Htarget Hnone. rewrite Htarget.
    assert (list_find (alert_key (Row.student_id r) cc g) alerts = None) as Hf.
    { apply list_find_None, Forall_forall. intros a Ha Hkey.
      assert (a ∈ state_of (Row.student_id r) cc g alerts) as Hin.
      { apply list_elem_of_filter. done. }
      rewrite Hnone in Hin. by apply elem_of_nil in Hin. }
    rewrite alert_loop_cons. unfold channel_ok, reconcile.
    cbn [send_sms_stub fst]. rewrite orb_true_r.
    unfold upsert_alert. rewrite Hf. reflexivity.
Qed.

End SendAlerts.

(** * Roster upload *)

Section RosterUpload.

Import Upload.

Lemma save_csv_all rows written :
  save_csv rows = (written, true) → written = student_of <$> rows.
Proof.
  revert written. induction rows as [|row rows IH]; intros written H.
  - simpl in H. by simplify_eq.
  - cbn [save_csv] in H. destruct (_ <? _)%nat; [done|].
    destruct (save_csv rows) as [written' ok]. simplify_eq.
    csimpl. by rewrite <-(IH written').
Qed.

(** Claim C9. An upload whose first record is not the required header, field
    for field and in order, is answered with the invalid header message
    and leaves the students file as it was. The students file changes
    only when the first record is that header, and an upload reported as
    successful has replaced it by the rows of the records that follow. *)
Theorem upload_students_header_gate (f : file) (students : list Student.t) :
  (∀ records, f = Records records → head records ≠ Some required →
     upload_students f students = (students, Invalid_header))
  ∧ (fst (upload_students f students) ≠ students →
     ∃ records, f = Records records ∧ head records = Some required)
  ∧ (snd (upload_students f students) = Students_uploaded_successfully →
     ∃ records, f = Records records ∧ head records = Some required
       ∧ fst (upload_students f students)
         = student_of <$> filter (λ row, row ≠ []) (tail records)).
Proof.
  split_and!.
  - intros records -> Hhead. unfold upload_students.
    by rewrite bool_decide_eq_false_2.
  - destruct f as [| |records]; simpl; [done|done|].
    case_bool_decide as Hhead; [eauto|done].
  - destruct f as [| |records]; simpl; [done|done|].
    case_bool_decide as Hhead; [|done].
    destruct (save_csv _) as [written ok] eqn:Hsave. simpl.
    destruct ok; [|done]. intros _. exists records.
    split_and!; [done|done|]. by apply save_csv_all.
Qed.

End RosterUpload.

(** * The statements on the example course *)

Section Examples.

Import Example.

Local Open Scope string_scope.

Local Abbreviation float_of_str := FloatText.float_of_str.
Local Abbreviation str_of_float := FloatText.str_of_float.



(** Claim C2 fails as stated. Siti has missed nothing, stands at 0.0 percent and
    has no row in the alerts file. A run that selects her, with the SMTP
    server accepting the email, leaves a row for her behind, with count 1
    and no flag set. *)
Lemma send_alerts_creates_record_below_tier :
  let run := send_alerts float_of_str str_of_float smtp_up [ali; siti]
               [absence "3"] [] "CSC101" "A" "40" ["S2"] in
  percent_of float_of_str Float.zero "40" = Some Float.zero
  ∧ Float.leb (Float.of_Z 7) Float.zero = false
  ∧ state_of "S2" "CSC101" "A" [] = []
  ∧ sent_count run = Some 1%nat
  ∧ state_of "S2" "CSC101" "A" (run_alerts run)
    = [ {| Alert.student_id := "S2"; Alert.name := "Siti";
           Alert.course_code := "CSC101"; Alert.group := "A";
           Alert.percent := "0.0"; Alert.count := "1";
           Alert.sent7 := ""; Alert.sent10 := ""; Alert.sent15 := "" |} ].
Proof. cbv zeta. split_and!; by vm_compute. Qed.

Lemma send_alerts_record_iff_selected_witness :
  compute_percentages float_of_str [ali; siti] [absence "3"] "CSC101" "A" "40"
  = Some [ali_row;
          siti_row]
  ∧ Forall count_ok []
  ∧ state_of "S2" "CSC101" "A"
      (run_alerts (send_alerts float_of_str str_of_float smtp_down [ali; siti]
                     [absence "3"] [] "CSC101" "A" "40" ["S2"])) ≠ [].
Proof.
  assert (compute_percentages float_of_str [ali; siti] [absence "3"]
            "CSC101" "A" "40"
          = Some [ali_row;
                  siti_row]) as Hc
    by (vm_compute; reflexivity).
  split_and!; [exact Hc|constructor|].
  destruct (send_alerts_record_iff_selected float_of_str str_of_float
              smtp_down [ali; siti] [absence "3"] [] "CSC101" "A" "40"
              ["S2"] _ Hc (Forall_nil_2 _)) as [Hiff _].
  apply (Hiff "S2"); [reflexivity|].
  exists siti_row. split; [|reflexivity].
  apply list_elem_of_lookup. exists 0%nat. vm_compute. reflexivity.
Defined.

Lemma alert_loop_reconciles_iff_channel_ok_witness :
  state_of "S1" "CSC101" "A"
    (run_alerts (alert_loop str_of_float sms_down smtp_down "CSC101" "A"
                   [ali_row] 0 [tracked] 0))
  = state_of "S1" "CSC101" "A" [tracked]
  ∧ sent_count (alert_loop str_of_float sms_down smtp_down "CSC101" "A"
                  [ali_row] 0 [tracked] 0) = Some 0%nat.
Proof.
  destruct (alert_loop_reconciles_iff_channel_ok str_of_float sms_down
              smtp_down "CSC101" "A" [ali_row] [tracked])
    as (_ & _ & Htotal & Hstate).
  split.
  - apply Hstate. intros i r _ _. split; reflexivity.
  - rewrite Htotal; [reflexivity|].
    apply Forall_singleton. exists 1%Z. vm_compute. reflexivity.
Defined.

(** Claim C4 fails as stated. One hour missed of 32 is 3.125 percent, exactly,
    in float arithmetic; the code stores 3.12, the even hundredth, where
    rounding half up gives 3.13. *)
Lemma percent_of_tie_not_half_up :
  Row.percent <$> default []
    (compute_percentages float_of_str [ali] [absence "1"] "CSC101" "A" "32")
  = [Float.of_hundredths false 312]
  ∧ float_of_str "32" = Some (Float.of_Z 32)
  ∧ Float.ltb (Float.of_Z 0) (Float.of_Z 32) = true
  ∧ Float.leb (Float.of_Z 0) (Float.of_Z 1) = true
  ∧ Float.mul (Float.div (Float.of_Z 1) (Float.of_Z 32)) (Float.of_Z 100)
    = S754_finite false 7036874417766400 (-51)
  ∧ (7036874417766400 * 100 * 2 = (2 * 312 + 1) * 2 ^ 51)%Z
  ∧ percent_of float_of_str (Float.of_Z 1) "32"
    = Some (Float.of_hundredths false 312)
  ∧ Float.round2_half_up
      (Float.mul (Float.div (Float.of_Z 1) (Float.of_Z 32)) (Float.of_Z 100))
    = Float.of_hundredths false 313
  ∧ percent_of float_of_str (Float.of_Z 1) "32"
    ≠ Some (Float.round2_half_up
              (Float.mul (Float.div (Float.of_Z 1) (Float.of_Z 32))
                 (Float.of_Z 100))).
Proof. split_and!; by vm_compute. Qed.

Lemma percent_of_rounds_ties_to_even_witness :
  float_of_str "40" = Some (Float.of_Z 40)
  ∧ Float.ltb (Float.of_Z 0) (Float.of_Z 40) = true
  ∧ Float.is_finite (Float.of_Z 3) = true
  ∧ Float.leb (Float.of_Z 0) (Float.of_Z 3) = true
  ∧ ∃ percent, percent_of float_of_str (Float.of_Z 3) "40" = Some percent
               ∧ Float.leb (Float.of_Z 0) percent = true.
Proof.
  split_and!; [vm_compute; reflexivity..|].
  destruct (percent_of_rounds_ties_to_even float_of_str (Float.of_Z 3)
              (Float.of_Z 40) "40")
    as (percent & Hp & Hle & _); [vm_compute; reflexivity..|].
  exists percent. split; [exact Hp|exact Hle].
Defined.

Lemma percent_of_nonpositive_total_witness :
  float_of_str "-5" = Some (Float.of_Z (-5))
  ∧ Float.leb (Float.of_Z (-5)) (Float.of_Z 0) = true
  ∧ percent_of float_of_str (Float.of_Z 3) "-5" = Some Float.zero.
Proof.
  split_and!; [vm_compute; reflexivity..|].
  apply (percent_of_nonpositive_total float_of_str (Float.of_Z (-5)) "-5");
    vm_compute; reflexivity.
Defined.

Lemma compute_percentages_row_per_enrolled_witness :
  float_of_str "40" = Some (Float.of_Z 40)
  ∧ Forall (hours_ok float_of_str "CSC101" "A") [absence "3"]
  ∧ ∃ missed rows,
      sum_hours_missed float_of_str [absence "3"] "CSC101" "A" = Some missed
      ∧ compute_percentages float_of_str [ali; siti] [absence "3"] "CSC101"
          "A" "40" = Some rows
      ∧ Row.student_id <$> rows = ["S1"; "S2"]
      ∧ missed !! "S2" = None.
Proof.
  assert (float_of_str "40" = Some (Float.of_Z 40)) as Hth
    by (vm_compute; reflexivity).
  assert (Forall (hours_ok float_of_str "CSC101" "A") [absence "3"]) as Hok.
  { apply Forall_singleton. intros _ _. eexists. vm_compute. reflexivity. }
  split_and!; [exact Hth|exact Hok|].
  destruct (compute_percentages_row_per_enrolled float_of_str [ali; siti]
              [absence "3"] "CSC101" "A" "40" _ Hth Hok)
    as (missed & rows & Hm & Hrows & Hids & Hnone & _).
  exists missed, rows. split_and!; [exact Hm|exact Hrows|exact Hids|].
  apply Hnone. intros a Ha (_ & _ & Hsid).
  apply list_elem_of_singleton in Ha. subst a. discriminate Hsid.
Defined.

Lemma reconciliations_keep_flags_witness :
  reconciliations str_of_float [tracked]
    [ {| Alert.student_id := "S1"; Alert.name := "Ali";
         Alert.course_code := "CSC101"; Alert.group := "A";
         Alert.percent := "2.5"; Alert.count := "2";
         Alert.sent7 := "yes"; Alert.sent10 := ""; Alert.sent15 := "" |} ]
  ∧ [tracked] !! 0%nat = Some tracked
  ∧ ∃ a', [ {| Alert.student_id := "S1"; Alert.name := "Ali";
               Alert.course_code := "CSC101"; Alert.group := "A";
               Alert.percent := "2.5"; Alert.count := "2";
               Alert.sent7 := "yes"; Alert.sent10 := ""; Alert.sent15 := "" |} ]
          !! 0%nat = Some a'
          ∧ (is_set (Alert.sent7 tracked) → is_set (Alert.sent7 a')).
Proof.
  assert (reconciliations str_of_float [tracked]
            [ {| Alert.student_id := "S1"; Alert.name := "Ali";
                 Alert.course_code := "CSC101"; Alert.group := "A";
                 Alert.percent := "2.5"; Alert.count := "2";
                 Alert.sent7 := "yes"; Alert.sent10 := "";
                 Alert.sent15 := "" |} ]) as Hrec.
  { eapply (reconciliations_cons str_of_float _ _ _ "S1" "Ali" "CSC101" "A"
              (Float.of_hundredths false 250) false false false);
      [vm_compute; reflexivity|constructor]. }
  split_and!; [exact Hrec|reflexivity|].
  destruct (reconciliations_keep_flags str_of_float _ _ 0%nat tracked Hrec
              eq_refl) as (a' & Ha' & _ & _ & _ & H7 & _).
  exists a'. split; [exact Ha'|exact H7].
Defined.

Lemma upsert_alert_overwrites_percent_increments_count_witness :
  [tracked] !! 0%nat = Some tracked
  ∧ alert_key "S1" "CSC101" "A" tracked
  ∧ PyInt.int_of_str (Alert.count tracked) = Some 1%Z
  ∧ ∃ a', upsert_alert str_of_float "S1" "Ali" "CSC101" "A"
            (Float.of_hundredths false 250) false false false [tracked]
          = Some (<[0%nat := a']> [tracked])
          ∧ Alert.percent a' = "2.5"
          ∧ Alert.count a' = "2".
Proof.
  split_and!; [reflexivity|done|vm_compute; reflexivity|].
  destruct (upsert_alert_overwrites_percent_increments_count str_of_float
              "S1" "Ali" "CSC101" "A" (Float.of_hundredths false 250)
              false false false [tracked]) as [Hfound _].
  destruct (Hfound 0%nat tracked 1%Z) as (a' & Hu & Hp & Hc & _).
  - reflexivity.
  - done.
  - intros j y _ Hj. inversion Hj.
  - vm_compute. reflexivity.
  - exists a'. split_and!; [exact Hu| |].
    + rewrite Hp. vm_compute. reflexivity.
    + rewrite Hc. vm_compute. reflexivity.
Defined.

Lemma send_alerts_always_processed_witness :
  compute_percentages float_of_str [ali; siti] [absence "3"] "CSC101" "A" "40"
  = Some [ali_row;
          siti_row]
  ∧ Forall count_ok [tracked]
  ∧ sent_count (send_alerts float_of_str str_of_float smtp_down [ali; siti]
                  [absence "3"] [tracked] "CSC101" "A" "40" ["S1"; "S2"])
    = Some 2%nat.
Proof.
  assert (compute_percentages float_of_str [ali; siti] [absence "3"]
            "CSC101" "A" "40"
          = Some [ali_row;
                  siti_row]) as Hc
    by (vm_compute; reflexivity).
  assert (Forall count_ok [tracked]) as Hok
    by (apply Forall_singleton; exists 1%Z; vm_compute; reflexivity).
  split_and!; [exact Hc|exact Hok|].
  destruct (send_alerts_always_processed float_of_str str_of_float)
    as [_ Hall].
  destruct (Hall smtp_down [ali; siti] [absence "3"] [tracked] "CSC101" "A"
              "40" ["S1"; "S2"] _ Hc) as (_ & _ & Htotal).
  rewrite (Htotal Hok). vm_compute. reflexivity.
Defined.

Lemma upload_students_header_gate_witness :
  head roster_without_part ≠ Some Upload.required
  ∧ Upload.upload_students (Upload.Records roster_without_part) [ali; siti]
    = ([ali; siti], Upload.Invalid_header).
Proof.
  assert (head roster_without_part ≠ Some Upload.required) as Hhead
    by discriminate.
  split; [exact Hhead|].
  destruct (upload_students_header_gate (Upload.Records roster_without_part)
              [ali; siti]) as [Hreject _].
  apply (Hreject roster_without_part eq_refl Hhead).
Defined.

End Examples.

(** * More on aggregation and percentages *)

Section Aggregation.

Variable float_of_str : string → option float.

Arguments Float.ltb : simpl never.
Arguments Float.leb : simpl never.
Arguments Float.of_Z : simpl never.
Arguments Float.round2 : simpl never.
Arguments Float.mul : simpl never.
Arguments Float.div : simpl never.
Arguments Float.add : simpl never.

Local Abbreviation hours_of := (hours_of float_of_str).

Lemma sum_hours_loop_is_Some attendance cc g missed :
  is_Some (sum_hours_loop float_of_str attendance cc g missed)
  ↔ Forall (hours_ok float_of_str cc g) attendance.
Proof.
  split; [|apply sum_hours_loop_total].
  revert missed. induction attendance as [|a attendance IH]; intros missed Hs.
  - constructor.
  - cbn [sum_hours_loop] in Hs.
    destruct (bool_decide (Attendance.course_code a = cc)) eqn:Hc;
      [destruct (bool_decide (Attendance.group a = g)) eqn:Hg|];
      cbn [andb] in Hs.
    + destruct (float_of_str (Attendance.hours a)) as [hrs|] eqn:Hh;
        [|by destruct Hs].
      simpl in Hs. constructor; [|by eapply IH].
      intros _ _. by eexists.
    + apply bool_decide_eq_false in Hg.
      constructor; [|by eapply IH]. by intros _ ?.
    + apply bool_decide_eq_false in Hc.
      constructor; [|by eapply IH]. by intros ?.
Qed.

Lemma hours_of_cons cc g sid a attendance :
  hours_of cc g sid (a :: attendance)
  = match (if decide (event_of cc g sid a)
           then float_of_str (Attendance.hours a) else None) with
    | Some h => h :: hours_of cc g sid attendance
    | None => hours_of cc g sid attendance
    end.
Proof. reflexivity. Qed.

Lemma sum_hours_loop_lookup attendance cc g missed missed' sid :
  sum_hours_loop float_of_str attendance cc g missed = Some missed' →
  missed' !! sid
  = match hours_of cc g sid attendance with
    | [] => missed !! sid
    | hs => Some (foldl Float.add (default Float.zero (missed !! sid)) hs)
    end.
Proof.
  revert missed. induction attendance as [|a attendance IH]; intros missed Hs.
  - simpl in Hs. by simplify_eq.
  - cbn [sum_hours_loop] in Hs. rewrite hours_of_cons.
    destruct (bool_decide (Attendance.course_code a = cc)) eqn:Hc;
      [destruct (bool_decide (Attendance.group a = g)) eqn:Hg|];
      cbn [andb] in Hs.
    + apply bool_decide_eq_true in Hc, Hg.
      destruct (float_of_str (Attendance.hours a)) as [hrs|] eqn:Hh; [|done].
      simpl in Hs. rewrite (IH _ Hs).
      destruct (decide (event_of cc g sid a)) as [(_ & _ & Hsid)|Hne].
      * subst sid. rewrite lookup_insert_eq. simpl.
        by destruct (hours_of _ _ _ attendance).
      * rewrite lookup_insert_ne; [done|].
        intros E. apply Hne. done.
    + apply bool_decide_eq_false in Hg.
      rewrite decide_False by (by intros (_ & ? & _)). by apply IH.
    + apply bool_decide_eq_false in Hc.
      rewrite decide_False by (by intros (? & _)). by apply IH.
Qed.

Lemma sum_hours_missed_None (attendance : list Attendance.t)
    (cc g : string) :
  sum_hours_missed float_of_str attendance cc g = None
  ↔ ∃ a, a ∈ attendance ∧ Attendance.course_code a = cc
         ∧ Attendance.group a = g
         ∧ float_of_str (Attendance.hours a) = None.
Proof.
  unfold sum_hours_missed. rewrite eq_None_not_Some, sum_hours_loop_is_Some.
  rewrite <-Exists_Forall_neg by (intros a; unfold hours_ok;
    destruct (decide (Attendance.course_code a = cc));
    destruct (decide (Attendance.group a = g));
    destruct (float_of_str (Attendance.hours a)); naive_solver).
  rewrite Exists_exists. split.
  - intros (a & Ha & Hbad). exists a. split; [done|].
    unfold hours_ok in Hbad.
    destruct (decide (Attendance.course_code a = cc)) as [Hc|Hc];
      [|by destruct Hbad].
    destruct (decide (Attendance.group a = g)) as [Hg|Hg];
      [|by destruct Hbad].
    destruct (float_of_str (Attendance.hours a)) eqn:Hh; [|done].
    destruct Hbad. by eexists.
  - intros (a & Ha & Hc & Hg & Hh). exists a. split; [done|].
    intros Hok. destruct (Hok Hc Hg) as [h Hh']. congruence.
Qed.

(** X1. [sum_hours_missed] raises exactly when an attendance row of the
    course and group has hours that do not read as a float; rows of other
    courses and groups are never read. *)
Theorem sum_hours_missed_raises_iff (attendance : list Attendance.t)
    (cc g : string) :
  sum_hours_missed float_of_str attendance cc g = None
  ↔ ∃ a, a ∈ attendance ∧ Attendance.course_code a = cc
         ∧ Attendance.group a = g
         ∧ float_of_str (Attendance.hours a) = None.
Proof. apply sum_hours_missed_None. Qed.

Lemma sum_hours_missed_lookup (attendance : list Attendance.t)
    (cc g : string) (missed : gmap string float) :
  sum_hours_missed float_of_str attendance cc g = Some missed →
  ∀ sid, missed !! sid
         = match hours_of cc g sid attendance with
           | [] => None
           | hs => Some (total_of hs)
           end.
Proof.
  intros Hs sid. unfold sum_hours_missed in Hs.
  rewrite (sum_hours_loop_lookup _ _ _ _ _ sid Hs), lookup_empty. reflexivity.
Qed.

(** X2. In the dictionary of [sum_hours_missed] a student has the sum of
    the hours of the student's own rows of the course and group, added one
    by one from 0.0 in the order of the file, whatever rows of other
    students lie between them; a student without such a row has no entry. *)
Theorem sum_hours_missed_totals (attendance : list Attendance.t)
    (cc g : string) (missed : gmap string float) :
  sum_hours_missed float_of_str attendance cc g = Some missed →
  ∀ sid, missed !! sid
         = match hours_of cc g sid attendance with
           | [] => None
           | hs => Some (total_of hs)
           end.
Proof. apply sum_hours_missed_lookup. Qed.

End Aggregation.

Section Rows.

Variable float_of_str : string → option float.

Arguments Float.ltb : simpl never.
Arguments Float.leb : simpl never.
Arguments Float.of_Z : simpl never.
Arguments Float.round2 : simpl never.
Arguments Float.mul : simpl never.
Arguments Float.div : simpl never.
Arguments Float.add : simpl never.

Local Abbreviation hours_of := (hours_of float_of_str).

Lemma row_of_is_Some missed total_hours s :
  is_Some (row_of float_of_str missed total_hours s)
  ↔ is_Some (float_of_str total_hours).
Proof.
  unfold row_of, percent_of.
  destruct (float_of_str total_hours) as [th|]; simpl.
  - destruct (Float.ltb _ _); simpl; split; by eexists.
  - split; by intros [].
Qed.

(** X3. [compute_percentages] raises exactly when an attendance row of
    the course and group has hours that are no float, or when a student is
    enrolled in the course and group and the total is no float. Without
    an enrolled student the total is never read. *)
Theorem compute_percentages_raises_iff (students : list Student.t)
    (attendance : list Attendance.t) (cc g total_hours : string) :
  compute_percentages float_of_str students attendance cc g total_hours = None
  ↔ (∃ a, a ∈ attendance ∧ Attendance.course_code a = cc
          ∧ Attendance.group a = g
          ∧ float_of_str (Attendance.hours a) = None)
    ∨ ((∃ s, s ∈ students ∧ enrolled cc g s)
       ∧ float_of_str total_hours = None).
Proof.
  rewrite <-(sum_hours_missed_None float_of_str). unfold compute_percentages.
  destruct (sum_hours_missed float_of_str attendance cc g) as [missed|];
    simpl; [|tauto].
  rewrite eq_None_not_Some, mapM_is_Some. split.
  - intros Hnot. right.
    destruct (float_of_str total_hours) as [th|] eqn:Hth.
    + destruct Hnot. apply Forall_forall. intros s _.
      apply row_of_is_Some. rewrite Hth. by eexists.
    + split; [|done].
      destruct (filter (enrolled cc g) students) as [|s l] eqn:Hf.
      * destruct Hnot. constructor.
      * assert (s ∈ filter (enrolled cc g) students) as Hin
          by (rewrite Hf; by left).
        apply list_elem_of_filter in Hin as [Hen Hin]. by exists s.
  - intros [?|[(s & Hs & Hen) Hth]]; [done|].
    intros Hall. rewrite Forall_forall in Hall.
    assert (s ∈ filter (enrolled cc g) students) as Hin
      by (by apply list_elem_of_filter).
    apply Hall, row_of_is_Some in Hin. rewrite Hth in Hin. by destruct Hin.
Qed.

Lemma total_of_default cc g sid attendance missed :
  sum_hours_missed float_of_str attendance cc g = Some missed →
  default Float.zero (missed !! sid) = total_of (hours_of cc g sid attendance).
Proof.
  intros Hs. rewrite (sum_hours_missed_lookup _ _ _ _ _ Hs sid).
  by destruct (hours_of _ _ _ _).
Qed.

Lemma compute_percentages_Forall2 students attendance cc g total_hours rows :
  compute_percentages float_of_str students attendance cc g total_hours
  = Some rows →
  Forall2 (λ s r,
      Row.student_id r = Student.student_id s
      ∧ Row.name r = Student.name s
      ∧ Row.phone r = Student.phone s
      ∧ Row.email r = Student.email s
      ∧ Row.hours_missed r
        = shown_hours (total_of (hours_of cc g (Student.student_id s) attendance))
      ∧ percent_of float_of_str
          (total_of (hours_of cc g (Student.student_id s) attendance))
          total_hours = Some (Row.percent r)
      ∧ Row.thresholds r = thresholds_text (Row.percent r))
    (filter (enrolled cc g) students) rows.
Proof.
  unfold compute_percentages. intros Hc.
  destruct (sum_hours_missed float_of_str attendance cc g) as [missed|] eqn:Hs;
    [|done].
  simpl in Hc. apply mapM_Some in Hc.
  eapply Forall2_impl; [exact Hc|]. intros s r Hrow. cbv beta in Hrow.
  unfold row_of in Hrow.
  rewrite (total_of_default _ _ _ _ _ Hs) in Hrow.
  destruct (percent_of _ _ _) as [percent|] eqn:Hp; [|done].
  cbn [mbind option_bind] in Hrow. injection Hrow as <-.
  split_and!; try reflexivity.
  cbn [Row.thresholds Row.percent]. unfold thresholds_text.
  by destruct (thresholds_of percent).
Qed.

(** X4. Every row of [compute_percentages] is made from the student's
    own record and the student's own attendance rows of the course and
    group alone: it copies the id, name, phone and email, shows the sum of
    those hours, and takes percent and thresholds from that sum. *)
Theorem compute_percentages_rows (students : list Student.t)
    (attendance : list Attendance.t) (cc g total_hours : string)
    (rows : list Row.t) :
  compute_percentages float_of_str students attendance cc g total_hours
  = Some rows →
  Forall2 (λ s r,
      Row.student_id r = Student.student_id s
      ∧ Row.name r = Student.name s
      ∧ Row.phone r = Student.phone s
      ∧ Row.email r = Student.email s
      ∧ Row.hours_missed r
        = shown_hours (total_of (hours_of cc g (Student.student_id s) attendance))
      ∧ percent_of float_of_str
          (total_of (hours_of cc g (Student.student_id s) attendance))
          total_hours = Some (Row.percent r)
      ∧ Row.thresholds r = thresholds_text (Row.percent r))
    (filter (enrolled cc g) students) rows.
Proof. apply compute_percentages_Forall2. Qed.

(** [x <= y] for two positive finite floats, by exponent and mantissa. *)
Lemma leb_finite_positive m1 e1 m2 e2 :
  Float.leb (S754_finite false m1 e1) (S754_finite false m2 e2) = true
  ↔ (e1 < e2 ∨ (e1 = e2 ∧ (m1 ≤ m2)%positive))%Z.
Proof.
  unfold Float.leb, SFleb, SFcompare.
  destruct (Z.compare_spec e1 e2) as [->|Hlt|Hgt].
  - change (Pos.compare_cont Eq m1 m2) with (Pos.compare m1 m2).
    destruct (Pos.compare_spec m1 m2); split; try done; lia.
  - split; [lia|done].
  - split; [done|lia].
Qed.

Lemma leb_tiers (percent : float) :
  (Float.leb (Float.of_Z 20) percent = true
   → Float.leb (Float.of_Z 15) percent = true)
  ∧ (Float.leb (Float.of_Z 15) percent = true
     → Float.leb (Float.of_Z 10) percent = true)
  ∧ (Float.leb (Float.of_Z 10) percent = true
     → Float.leb (Float.of_Z 7) percent = true).
Proof.
  destruct percent as [s|[]| |[] m e]; try (split_and!; done).
  change (Float.of_Z 20) with (S754_finite false 5629499534213120 (-48)).
  change (Float.of_Z 15) with (S754_finite false 8444249301319680 (-49)).
  change (Float.of_Z 10) with (S754_finite false 5629499534213120 (-49)).
  change (Float.of_Z 7) with (S754_finite false 7881299347898368 (-50)).
  rewrite !leb_finite_positive. lia.
Qed.

(** X5. The tiers are nested for every float: a percent that reaches 20
    reaches 15, one that reaches 15 reaches 10, one that reaches 10
    reaches 7; so the text of the thresholds is decided by the highest tier
    reached, and nan reaches none. *)
Theorem tiers_are_nested (percent : float) :
  (Float.leb (Float.of_Z 20) percent = true
   → Float.leb (Float.of_Z 15) percent = true)
  ∧ (Float.leb (Float.of_Z 15) percent = true
     → Float.leb (Float.of_Z 10) percent = true)
  ∧ (Float.leb (Float.of_Z 10) percent = true
     → Float.leb (Float.of_Z 7) percent = true)
  ∧ thresholds_text percent
    = (if Float.leb (Float.of_Z 15) percent then "7%, 10%, 15%"
       else if Float.leb (Float.of_Z 10) percent then "7%, 10%"
       else if Float.leb (Float.of_Z 7) percent then "7%"
       else "-")%string
  ∧ Float.leb (Float.of_Z 7) S754_nan = false.
Proof.
  destruct (leb_tiers percent) as (H20 & H15 & H10).
  split_and!; [done|done|done| |done].
  unfold thresholds_text, thresholds_of. cbn [mbind list_bind app].
  destruct (Float.leb (Float.of_Z 15) percent) eqn:E15.
  - rewrite (H15 eq_refl), (H10 (H15 eq_refl)). reflexivity.
  - destruct (Float.leb (Float.of_Z 10) percent) eqn:E10.
    + rewrite (H10 eq_refl). reflexivity.
    + destruct (Float.leb (Float.of_Z 7) percent); reflexivity.
Qed.

Lemma add_nan_l x : Float.add S754_nan x = S754_nan.
Proof. reflexivity. Qed.

Lemma add_nan_r x : Float.add x S754_nan = S754_nan.
Proof. by destruct x. Qed.

Lemma foldl_add_nan hs : foldl Float.add S754_nan hs = S754_nan.
Proof. induction hs as [|h hs IH]; [done|]. simpl. by rewrite add_nan_l. Qed.

Lemma total_of_nan hs : S754_nan ∈ hs → total_of hs = S754_nan.
Proof.
  unfold total_of. generalize Float.zero.
  induction hs as [|h hs IH]; intros acc Hin; [by apply elem_of_nil in Hin|].
  apply elem_of_cons in Hin as [<-|Hin]; simpl.
  - by rewrite add_nan_r, foldl_add_nan.
  - by apply IH.
Qed.

(** X6. One attendance row whose hours read as nan makes the student's
    sum nan for good: under a total above zero the student's percent is
    nan, no tier is reached and the thresholds are shown as [-], whatever
    the other rows hold. *)
Theorem nan_hours_reach_no_tier (students : list Student.t)
    (attendance : list Attendance.t) (cc g total_hours : string) (th : float)
    (rows : list Row.t) :
  compute_percentages float_of_str students attendance cc g total_hours
  = Some rows →
  float_of_str total_hours = Some th →
  Float.ltb (Float.of_Z 0) th = true →
  ∀ r, r ∈ rows →
    S754_nan ∈ hours_of cc g (Row.student_id r) attendance →
    Row.hours_missed r = Flt S754_nan
    ∧ Row.percent r = S754_nan
    ∧ Float.leb (Float.of_Z 7) (Row.percent r) = false
    ∧ Row.thresholds r = "-"%string.
Proof.
  intros Hc Hth Hlt r Hr Hnan.
  apply compute_percentages_Forall2 in Hc.
  apply list_elem_of_lookup in Hr as [i Hi].
  destruct (Forall2_lookup_r _ _ _ _ _ Hc Hi)
    as (s & _ & Hsid & _ & _ & _ & Hh & Hp & Ht).
  rewrite <-Hsid in Hh, Hp. rewrite (total_of_nan _ Hnan) in Hh, Hp.
  rewrite (percent_of_positive _ _ _ _ Hth Hlt) in Hp.
  assert (Row.percent r = S754_nan) as Hnanp.
  { injection Hp as <-. by destruct th. }
  rewrite Ht, Hnanp. by split_and!.
Qed.

(** X7. A total that is nan or infinite is no error: for finite hours
    missed the percent is a zero. *)
Theorem percent_of_non_finite_total (hours_missed th : float)
    (total_hours : string) :
  float_of_str total_hours = Some th →
  Float.is_finite th = false →
  Float.is_finite hours_missed = true →
  ∃ s, percent_of float_of_str hours_missed total_hours = Some (S754_zero s).
Proof.
  intros Hth Hinf Hfin. unfold percent_of. rewrite Hth. simpl.
  destruct th as [s|[]| |s m e]; try discriminate Hinf.
  - by exists false.
  - destruct hours_missed as [s|s| |s m e]; try discriminate Hfin;
      by eexists.
  - by exists false.
Qed.

End Rows.

(** * More on the alert state *)

Section AlertRows.

Variable float_of_str : string → option float.
Variable str_of_float : float → string.

Local Open Scope string_scope.

Arguments Float.leb : simpl never.
Arguments Float.of_Z : simpl never.

Lemma first_of_filter {A} (P : A → Prop) `{!∀ x, Decision (P x)}
    (l : list A) i x :
  l !! i = Some x → P x →
  (∀ j y, l !! j = Some y → (j < i)%nat → ¬ P y) →
  head (filter P l) = Some x
  ∧ ∀ y, P y → filter P (<[i:=y]> l) = y :: tail (filter P l).
Proof.
  revert i. induction l as [|z l IH]; intros [|i] Hi Hx Hfirst;
    simplify_eq/=.
  - rewrite filter_cons, decide_True by done. split; [done|].
    intros y Hy. by rewrite filter_cons, decide_True.
  - assert (¬ P z) as Hz by (apply (Hfirst 0%nat z); [done|lia]).
    rewrite filter_cons, decide_False by done.
    destruct (IH i Hi Hx) as [Hhead Hins].
    { intros j y Hj Hlt. apply (Hfirst (S j) y); [done|lia]. }
    split; [done|]. intros y Hy.
    rewrite filter_cons, decide_False by done. by apply Hins.
Qed.

Lemma state_of_no_row sid cc g alerts :
  list_find (alert_key sid cc g) alerts = None → state_of sid cc g alerts = [].
Proof.
  intros Hf. apply list_find_None in Hf. unfold state_of.
  induction Hf as [|a l Ha _ IH]; [done|].
  by rewrite filter_cons, decide_False.
Qed.

(** What [upsert_alert] does to the rows of its key: the first is
    replaced, or a first one is made. *)
Lemma upsert_alert_state_of sid name cc g percent h7 h10 h15 alerts alerts' :
  upsert_alert str_of_float sid name cc g percent h7 h10 h15 alerts
  = Some alerts' →
  ∃ a' n,
    state_of sid cc g alerts' = a' :: tail (state_of sid cc g alerts)
    ∧ count_of sid cc g alerts = Some n
    ∧ Alert.count a' = PyInt.str_of_int (n + 1)
    ∧ Alert.percent a' = str_of_float percent
    ∧ Alert.sent7 a'
      = (if h7 then "yes"
         else from_option Alert.sent7 "" (head (state_of sid cc g alerts)))
    ∧ Alert.sent10 a'
      = (if h10 then "yes"
         else from_option Alert.sent10 "" (head (state_of sid cc g alerts)))
    ∧ Alert.sent15 a'
      = (if h15 then "yes"
         else from_option Alert.sent15 "" (head (state_of sid cc g alerts))).
Proof.
  unfold upsert_alert, count_of. intros Hu.
  destruct (list_find _ alerts) as [[i found]|] eqn:Hf.
  - apply list_find_Some in Hf as (Hi & Hkey & Hfirst).
    destruct (first_of_filter _ _ _ _ Hi Hkey Hfirst) as [Hhead Hins].
    fold (state_of sid cc g alerts) in Hhead. rewrite Hhead. simpl.
    destruct (PyInt.int_of_str (Alert.count found)) as [n|]; [|done].
    simpl in Hu. injection Hu as <-.
    eexists _, n. split; [apply Hins; exact Hkey|]. by split_and!.
  - injection Hu as <-. rewrite (state_of_no_row _ _ _ _ Hf). simpl.
    eexists _, 0%Z. unfold state_of at 1.
    rewrite filter_app, filter_cons, decide_True, filter_nil by done.
    fold (state_of sid cc g alerts). rewrite (state_of_no_row _ _ _ _ Hf).
    by split_and!.
Qed.

Lemma upsert_alert_keys sid name cc g percent h7 h10 h15 alerts alerts' :
  upsert_alert str_of_float sid name cc g percent h7 h10 h15 alerts
  = Some alerts' →
  key_of <$> alerts'
  = if decide ((sid, cc, g) ∈ key_of <$> alerts) then key_of <$> alerts
    else ((key_of <$> alerts) ++ [(sid, cc, g)])%list.
Proof.
  unfold upsert_alert. intros Hu.
  destruct (list_find _ alerts) as [[i found]|] eqn:Hf.
  - apply list_find_Some in Hf as (Hi & (H1 & H2 & H3) & _).
    destruct (PyInt.int_of_str (Alert.count found)) as [n|]; [|done].
    simpl in Hu. injection Hu as <-.
    rewrite decide_True.
    + rewrite list_fmap_insert. apply list_insert_id.
      rewrite list_lookup_fmap, Hi. reflexivity.
    + apply list_elem_of_fmap. exists found. split.
      * unfold key_of. by rewrite H1, H2, H3.
      * by apply list_elem_of_lookup_2 in Hi.
  - injection Hu as <-. apply list_find_None in Hf.
    rewrite decide_False.
    + by rewrite fmap_app.
    + intros (a & Hk & Ha)%list_elem_of_fmap.
      rewrite Forall_forall in Hf. apply (Hf a Ha).
      unfold key_of in Hk. by simplify_eq.
Qed.

Lemma upsert_alert_unique_keys sid name cc g percent h7 h10 h15 alerts alerts' :
  upsert_alert str_of_float sid name cc g percent h7 h10 h15 alerts
  = Some alerts' →
  unique_keys alerts → unique_keys alerts'.
Proof.
  intros Hu. unfold unique_keys.
  rewrite (upsert_alert_keys _ _ _ _ _ _ _ _ _ _ Hu).
  destruct (decide _) as [Hin|Hnin]; [done|].
  intros Hnd. apply NoDup_app. split_and!; [done| |apply NoDup_singleton].
  intros k Hk1 Hk2%list_elem_of_singleton. by subst k.
Qed.

(** X8. [upsert_alert] keeps the keys of the alerts file in place and
    adds its key at the end exactly when the file has no row for it; so a
    file without two rows of one key stays such a file. *)
Theorem upsert_alert_keeps_keys_unique (sid name cc g : string)
    (percent : float) (h7 h10 h15 : bool) (alerts alerts' : list Alert.t) :
  upsert_alert str_of_float sid name cc g percent h7 h10 h15 alerts
  = Some alerts' →
  key_of <$> alerts'
  = (if decide ((sid, cc, g) ∈ key_of <$> alerts) then key_of <$> alerts
     else ((key_of <$> alerts) ++ [(sid, cc, g)])%list)
  ∧ (unique_keys alerts → unique_keys alerts').
Proof.
  intros Hu. split.
  - by apply upsert_alert_keys with name percent h7 h10 h15.
  - by eapply upsert_alert_unique_keys.
Qed.

Lemma upsert_alert_count_of sid name cc g percent h7 h10 h15 alerts alerts'
    sid' n :
  upsert_alert str_of_float sid name cc g percent h7 h10 h15 alerts
  = Some alerts' →
  count_of sid' cc g alerts = Some n →
  count_of sid' cc g alerts'
  = Some (if decide (sid' = sid) then n + 1 else n)%Z.
Proof.
  intros Hu Hn. destruct (decide (sid' = sid)) as [->|Hne].
  - destruct (upsert_alert_state_of _ _ _ _ _ _ _ _ _ _ Hu)
      as (a' & m & Hst & Hm & Hc & _).
    unfold count_of. rewrite Hst. simpl. rewrite Hc, int_of_str_of_int.
    congruence.
  - unfold count_of.
    rewrite (upsert_alert_other_key _ _ _ _ _ _ _ _ _ _ _ sid' cc g Hu);
      [exact Hn|].
    by intros (? & _).
Qed.

Lemma reconcile_all_count_of cc g rows alerts alerts' sid n :
  reconcile_all str_of_float cc g rows alerts = Some alerts' →
  count_of sid cc g alerts = Some n →
  count_of sid cc g alerts'
  = Some (n + Z.of_nat (length (filter (λ r, Row.student_id r = sid) rows)))%Z.
Proof.
  revert alerts n. induction rows as [|r rows IH]; intros alerts n Hall Hn.
  - simpl in Hall. simplify_eq. rewrite filter_nil. simpl.
    by rewrite Z.add_0_r.
  - cbn [reconcile_all] in Hall.
    destruct (reconcile _ _ _ _ _) as [alerts1|] eqn:Hr; [|done].
    simpl in Hall. unfold reconcile in Hr.
    pose proof (upsert_alert_count_of _ _ _ _ _ _ _ _ _ _ sid n Hr Hn) as H1.
    rewrite (IH _ _ Hall H1). f_equal. rewrite filter_cons.
    destruct (decide (sid = Row.student_id r)) as [->|Hne].
    + rewrite decide_True by done. simpl length. lia.
    + rewrite decide_False by done. done.
Qed.

End AlertRows.

Section AlertFile.

Variable float_of_str : string → option float.
Variable str_of_float : float → string.

Local Open Scope string_scope.

Arguments Float.leb : simpl never.
Arguments Float.of_Z : simpl never.

(** The loop of [send_alerts] keeps what every reconciliation keeps,
    also when an exception ends it. *)
Lemma alert_loop_invariant (P : list Alert.t → Prop) sms server cc g
    target i alerts count :
  (∀ r alerts0 alerts1,
     reconcile str_of_float cc g r alerts0 = Some alerts1 →
     P alerts0 → P alerts1) →
  P alerts →
  P (run_alerts (alert_loop str_of_float sms server cc g target i alerts count)).
Proof.
  intros Hstep. revert i alerts count.
  induction target as [|r target IH]; intros i alerts count HP; [done|].
  rewrite alert_loop_cons. cbn zeta.
  destruct (channel_ok _ _ _ _ _ _); [|by apply IH].
  destruct (reconcile _ _ _ _ _) as [alerts1|] eqn:Hr; [|done].
  simpl. apply IH. by eapply Hstep.
Qed.

Lemma reconcile_sound_rows cc g r alerts alerts' :
  reconcile str_of_float cc g r alerts = Some alerts' →
  Forall sound_row alerts → Forall sound_row alerts'.
Proof.
  unfold reconcile, upsert_alert. intros Hu Hall.
  destruct (leb_tiers (Row.percent r)) as (_ & H15 & H10).
  destruct (list_find _ alerts) as [[i found]|] eqn:Hf.
  - apply list_find_Some in Hf as (Hi & _ & _).
    destruct (proj1 (Forall_lookup _ _) Hall i found Hi)
      as [(n & Hn & Hpos) [N15 N10]].
    rewrite Hn in Hu. simpl in Hu. injection Hu as <-.
    apply Forall_insert; [done|]. split.
    + exists (n + 1)%Z. simpl. rewrite int_of_str_of_int. split; [done|lia].
    + unfold nested_flags, is_set in *. simpl. split.
      * destruct (Float.leb (Float.of_Z 15) _) eqn:E15.
        -- by rewrite (H15 eq_refl).
        -- intros H. destruct (Float.leb (Float.of_Z 10) _); auto.
      * destruct (Float.leb (Float.of_Z 10) _) eqn:E10.
        -- by rewrite (H10 eq_refl).
        -- intros H. destruct (Float.leb (Float.of_Z 7) _); auto.
  - injection Hu as <-. apply Forall_app. split; [done|].
    apply Forall_singleton. split.
    + exists 1%Z. by split.
    + unfold nested_flags, is_set. simpl. split.
      * destruct (Float.leb (Float.of_Z 15) _) eqn:E15; [|done].
        by rewrite (H15 eq_refl).
      * destruct (Float.leb (Float.of_Z 10) _) eqn:E10; [|done].
        by rewrite (H10 eq_refl).
Qed.

Lemma reconcile_well_formed cc g r alerts alerts' :
  reconcile str_of_float cc g r alerts = Some alerts' →
  well_formed alerts → well_formed alerts'.
Proof.
  intros Hr [Hk Hs]. split.
  - by eapply upsert_alert_unique_keys.
  - by eapply reconcile_sound_rows.
Qed.

(** X9. Every request to [/send-alerts], whether it ends normally or by
    an exception, takes an alerts file without two rows of one key, with
    counts that read as integers from 1 up and with flags set from the
    lowest tier up, to such a file again; the empty file is one. *)
Theorem send_alerts_keeps_well_formed (server : nat → smtp_outcome)
    (students : list Student.t) (attendance : list Attendance.t)
    (alerts : list Alert.t) (cc g total_hours : string)
    (selected : list string) :
  well_formed [] ∧
  (well_formed alerts →
   well_formed
     (run_alerts (send_alerts float_of_str str_of_float server students
                    attendance alerts cc g total_hours selected))).
Proof.
  split.
  - split; [apply NoDup_nil_2|constructor].
  - intros Hwf. unfold send_alerts.
    destruct (compute_percentages _ _ _ _ _ _) as [computed|]; [|done].
    apply alert_loop_invariant; [|done].
    intros r a0 a1. apply reconcile_well_formed.
Qed.

(** X10. After a request to [/send-alerts] that ends normally, the count
    of a student's key is the count before plus the number of selected
    rows of the student among the computed percentages; the counts of the
    other students are as before. *)
Theorem send_alerts_counts_runs (server : nat → smtp_outcome)
    (students : list Student.t) (attendance : list Attendance.t)
    (alerts : list Alert.t) (cc g total_hours : string)
    (selected : list string) (computed : list Row.t) (k : nat) :
  compute_percentages float_of_str students attendance cc g total_hours
  = Some computed →
  sent_count (send_alerts float_of_str str_of_float server students attendance
                alerts cc g total_hours selected) = Some k →
  ∀ sid n,
    count_of sid cc g alerts = Some n →
    count_of sid cc g
      (run_alerts (send_alerts float_of_str str_of_float server students
                     attendance alerts cc g total_hours selected))
    = Some (n + Z.of_nat (length (filter (λ r, Row.student_id r = sid)
                             (filter (λ r, Row.student_id r ∈ selected)
                                computed))))%Z.
Proof.
  unfold send_alerts. intros Hc Hk sid n Hn. rewrite Hc in Hk |- *.
  pose proof (alert_loop_completed _ _ _ _ _ _ _ _ _ _ Hk) as Hall.
  rewrite processed_sms_stub in Hall.
  by apply (reconcile_all_count_of _ _ _ _ _ _ _ _ Hall).
Qed.

End AlertFile.

(** * The list of alerts *)

Section AlertList.

Variable float_of_str : string → option float.
Variable str_of_float : float → string.

Local Open Scope string_scope.

Arguments Float.leb : simpl never.
Arguments Float.of_Z : simpl never.

Lemma state_of_cons sid cc g a alerts :
  state_of sid cc g (a :: alerts)
  = if decide (alert_key sid cc g a) then a :: state_of sid cc g alerts
    else state_of sid cc g alerts.
Proof. unfold state_of. by rewrite filter_cons. Qed.

Lemma load_alerts_loop_lookup alerts cc g m sid :
  load_alerts_loop alerts cc g m !! sid
  = match last (state_of sid cc g alerts) with
    | Some a => Some a
    | None => m !! sid
    end.
Proof.
  revert m. induction alerts as [|a alerts IH]; intros m; [done|].
  cbn [load_alerts_loop]. rewrite state_of_cons.
  destruct (bool_decide (Alert.course_code a = cc)) eqn:Hc;
    [destruct (bool_decide (Alert.group a = g)) eqn:Hg|]; cbn [andb].
  - apply bool_decide_eq_true in Hc, Hg. rewrite IH.
    destruct (decide (alert_key sid cc g a)) as [(Hsid & _)|Hne].
    + rewrite last_cons, Hsid, lookup_insert_eq.
      by destruct (last (state_of sid cc g alerts)).
    + rewrite lookup_insert_ne; [done|].
      intros E. apply Hne. done.
  - apply bool_decide_eq_false in Hg.
    rewrite decide_False by (by intros (_ & _ & ?)). apply IH.
  - apply bool_decide_eq_false in Hc.
    rewrite decide_False by (by intros (_ & ? & _)). apply IH.
Qed.

Lemma load_alerts_map_last alerts cc g sid :
  load_alerts_map alerts cc g !! sid = last (state_of sid cc g alerts).
Proof.
  unfold load_alerts_map. rewrite load_alerts_loop_lookup, lookup_empty.
  by destruct (last _).
Qed.

Lemma unique_state_of alerts sid cc g :
  unique_keys alerts →
  state_of sid cc g alerts = [] ∨ ∃ a, state_of sid cc g alerts = [a].
Proof.
  unfold unique_keys. induction alerts as [|a alerts IH]; [by left|].
  rewrite fmap_cons, NoDup_cons. intros [Hnin Hnd]. rewrite state_of_cons.
  destruct (decide (alert_key sid cc g a)) as [(H1 & H2 & H3)|Hne];
    [|by apply IH].
  right. exists a. f_equal.
  destruct (state_of sid cc g alerts) as [|b l] eqn:Hst; [done|].
  assert (b ∈ state_of sid cc g alerts) as Hb by (rewrite Hst; by left).
  apply list_elem_of_filter in Hb as [(K1 & K2 & K3) Hb].
  destruct Hnin. apply list_elem_of_fmap. exists b. split; [|done].
  unfold key_of. congruence.
Qed.

(** X11. [load_alerts_map] gives for a student the last row of the
    student's key in the alerts file, where [upsert_alert] works on the
    first; in a file without two rows of one key both are the same row. *)
Theorem load_alerts_map_row (alerts : list Alert.t) (cc g sid : string) :
  load_alerts_map alerts cc g !! sid = last (state_of sid cc g alerts)
  ∧ (unique_keys alerts →
     load_alerts_map alerts cc g !! sid = head (state_of sid cc g alerts)).
Proof.
  split; [apply load_alerts_map_last|].
  intros Hu. rewrite load_alerts_map_last.
  by destruct (unique_state_of alerts sid cc g Hu) as [->|[a ->]].
Qed.

(** X12. In a file without two rows of one key, what [upsert_alert]
    writes for a student is what [load_alerts_map] reads back for the
    student: the text of the percent, the count raised by one, [yes] for
    every tier hit; the entries of the other students are as before. *)
Theorem upsert_then_load (sid name cc g : string) (percent : float)
    (h7 h10 h15 : bool) (alerts alerts' : list Alert.t) :
  unique_keys alerts →
  upsert_alert str_of_float sid name cc g percent h7 h10 h15 alerts
  = Some alerts' →
  (∃ a' n,
     load_alerts_map alerts' cc g !! sid = Some a'
     ∧ count_of sid cc g alerts = Some n
     ∧ Alert.count a' = PyInt.str_of_int (n + 1)
     ∧ Alert.percent a' = str_of_float percent
     ∧ (h7 = true → is_set (Alert.sent7 a'))
     ∧ (h10 = true → is_set (Alert.sent10 a'))
     ∧ (h15 = true → is_set (Alert.sent15 a')))
  ∧ ∀ sid', sid' ≠ sid →
      load_alerts_map alerts' cc g !! sid' = load_alerts_map alerts cc g !! sid'.
Proof.
  intros Hu Hup. split.
  - destruct (upsert_alert_state_of _ _ _ _ _ _ _ _ _ _ _ Hup)
      as (a' & n & Hst & Hn & Hc & Hp & H7 & H10 & H15).
    exists a', n. rewrite load_alerts_map_last, Hst.
    assert (tail (state_of sid cc g alerts) = []) as ->
      by (by destruct (unique_state_of alerts sid cc g Hu) as [->|[a ->]]).
    unfold is_set. split_and!; try done.
    + intros ->. exact H7.
    + intros ->. exact H10.
    + intros ->. exact H15.
  - intros sid' Hne. rewrite !load_alerts_map_last.
    rewrite (upsert_alert_other_key _ _ _ _ _ _ _ _ _ _ _ sid' cc g Hup);
      [done|].
    by intros (? & _).
Qed.

Lemma alerts_rows_Some students attendance alerts cc g total_hours computed :
  compute_percentages float_of_str students attendance cc g total_hours
  = Some computed →
  ∃ listed,
    alerts_rows float_of_str students attendance alerts cc g total_hours
    = Some listed
    ∧ Listed.row <$> listed
      = filter (λ r, Float.leb (Float.of_Z 7) (Row.percent r) = true) computed
    ∧ ∀ l, l ∈ listed →
        let a := last (state_of (Row.student_id (Listed.row l)) cc g alerts) in
        Listed.sent7 l = from_option Alert.sent7 "" a
        ∧ Listed.sent10 l = from_option Alert.sent10 "" a
        ∧ Listed.sent15 l = from_option Alert.sent15 "" a
        ∧ Listed.count l = from_option Alert.count "0" a.
Proof.
  intros Hc. unfold alerts_rows. rewrite Hc. simpl.
  eexists. split; [reflexivity|]. clear Hc.
  induction computed as [|r computed [IH1 IH2]]; [split; [done|]|].
  { by intros l ?%elem_of_nil. }
  cbn [mbind list_bind]. rewrite filter_cons.
  destruct (Float.leb (Float.of_Z 7) (Row.percent r)) eqn:E7.
  - rewrite decide_True by done. split.
    + rewrite fmap_app. cbn [fmap list_fmap app Listed.row]. by rewrite <-IH1.
    + intros l [Hl|Hl]%elem_of_app; [|by apply IH2].
      apply list_elem_of_singleton in Hl. subst l. cbn zeta.
      cbn [Listed.row Listed.sent7 Listed.sent10 Listed.sent15 Listed.count].
      by rewrite load_alerts_map_last.
  - rewrite decide_False by done. split; [exact IH1|].
    intros l Hl. by apply IH2.
Qed.

(** X13. [alerts] lists the rows of [compute_percentages] whose percent
    reaches 7, in their order, and no others; beside each it shows the
    flags and the count of the last row of the student's key in the alerts
    file, and empty flags and the count 0 for a student without a row. *)
Theorem alerts_rows_lists_tier7 (students : list Student.t)
    (attendance : list Attendance.t) (alerts : list Alert.t)
    (cc g total_hours : string) (computed : list Row.t) :
  compute_percentages float_of_str students attendance cc g total_hours
  = Some computed →
  ∃ listed,
    alerts_rows float_of_str students attendance alerts cc g total_hours
    = Some listed
    ∧ Listed.row <$> listed
      = filter (λ r, Float.leb (Float.of_Z 7) (Row.percent r) = true) computed
    ∧ ∀ l, l ∈ listed →
        let a := last (state_of (Row.student_id (Listed.row l)) cc g alerts) in
        Listed.sent7 l = from_option Alert.sent7 "" a
        ∧ Listed.sent10 l = from_option Alert.sent10 "" a
        ∧ Listed.sent15 l = from_option Alert.sent15 "" a
        ∧ Listed.count l = from_option Alert.count "0" a.
Proof. apply alerts_rows_Some. Qed.

Lemma upsert_alert_tier7_sent sid0 sid name cc g percent h7 h10 h15
    alerts alerts' :
  upsert_alert str_of_float sid name cc g percent h7 h10 h15 alerts
  = Some alerts' →
  tier7_sent sid0 cc g alerts → tier7_sent sid0 cc g alerts'.
Proof.
  intros Hup [Hne Hall]. destruct (decide (sid0 = sid)) as [->|Hdiff].
  - destruct (upsert_alert_state_of _ _ _ _ _ _ _ _ _ _ _ Hup)
      as (a' & n & Hst & _ & _ & _ & H7 & _).
    unfold tier7_sent. rewrite Hst. split; [done|].
    destruct (state_of sid cc g alerts) as [|a rest]; [done|].
    apply Forall_cons in Hall as [Ha Hrest]. simpl in *.
    constructor; [|done]. rewrite H7. by destruct h7.
  - unfold tier7_sent.
    rewrite (upsert_alert_other_key _ _ _ _ _ _ _ _ _ _ _ sid0 cc g Hup);
      [done|].
    by intros (? & _).
Qed.

Lemma reconcile_all_tier7_sent cc g rows alerts alerts' r :
  reconcile_all str_of_float cc g rows alerts = Some alerts' →
  unique_keys alerts →
  r ∈ rows →
  Float.leb (Float.of_Z 7) (Row.percent r) = true →
  tier7_sent (Row.student_id r) cc g alerts'.
Proof.
  intros Hall Hu Hr H7.
  assert (∀ rows alerts alerts',
            reconcile_all str_of_float cc g rows alerts = Some alerts' →
            tier7_sent (Row.student_id r) cc g alerts →
            tier7_sent (Row.student_id r) cc g alerts') as Hkeep.
  { clear. induction rows as [|r0 rows IH]; intros alerts alerts' Hall Ht.
    - simpl in Hall. by simplify_eq.
    - cbn [reconcile_all] in Hall.
      destruct (reconcile _ _ _ _ _) as [alerts1|] eqn:Hr0; [|done].
      simpl in Hall. apply (IH _ _ Hall).
      by eapply upsert_alert_tier7_sent. }
  revert alerts Hall Hu.
  induction rows as [|r0 rows IH]; intros alerts Hall Hu;
    [by apply elem_of_nil in Hr|].
  cbn [reconcile_all] in Hall.
  destruct (reconcile _ _ _ _ _) as [alerts1|] eqn:Hr0; [|done].
  simpl in Hall.
  pose proof (upsert_alert_unique_keys _ _ _ _ _ _ _ _ _ _ _ Hr0 Hu) as Hu1.
  apply elem_of_cons in Hr as [->|Hr]; [|by apply (IH Hr alerts1)].
  apply (Hkeep _ _ _ Hall).
  destruct (upsert_alert_state_of _ _ _ _ _ _ _ _ _ _ _ Hr0)
    as (a' & n & Hst & _ & _ & _ & Hs7 & _).
  unfold tier7_sent. rewrite Hst.
  assert (tail (state_of (Row.student_id r0) cc g alerts) = []) as ->
    by (by destruct (unique_state_of alerts (Row.student_id r0) cc g Hu)
          as [->|[a ->]]).
  split; [done|]. apply Forall_singleton. by rewrite Hs7, H7.
Qed.

(** X14. After a request to [/send-alerts] that ends normally, on an
    alerts file as the program leaves it, [alerts] shows every listed
    student who was selected with the flag of tier 7 set and a count of at
    least 1. *)
Theorem alerts_after_send_alerts (server : nat → smtp_outcome)
    (students : list Student.t) (attendance : list Attendance.t)
    (alerts : list Alert.t) (cc g total_hours : string)
    (selected : list string) (k : nat) (listed : list Listed.t) :
  well_formed alerts →
  sent_count (send_alerts float_of_str str_of_float server students attendance
                alerts cc g total_hours selected) = Some k →
  alerts_rows float_of_str students attendance
    (run_alerts (send_alerts float_of_str str_of_float server students
                   attendance alerts cc g total_hours selected))
    cc g total_hours = Some listed →
  ∀ l, l ∈ listed → Row.student_id (Listed.row l) ∈ selected →
    is_set (Listed.sent7 l)
    ∧ ∃ n, PyInt.int_of_str (Listed.count l) = Some n ∧ (1 ≤ n)%Z.
Proof.
  intros Hwf Hk Hlisted l Hl Hsel.
  assert (well_formed
            (run_alerts (send_alerts float_of_str str_of_float server students
                           attendance alerts cc g total_hours selected)))
    as [_ Hsound].
  { unfold send_alerts.
    destruct (compute_percentages _ _ _ _ _ _) as [computed|]; [|done].
    apply alert_loop_invariant; [|done].
    intros r a0 a1. apply reconcile_well_formed. }
  unfold send_alerts in *.
  destruct (compute_percentages float_of_str students attendance cc g
              total_hours) as [computed|] eqn:Hc; [|done].
  destruct (alerts_rows_Some students attendance
              (run_alerts (alert_loop str_of_float send_sms_stub server cc g
                 (filter (λ r, Row.student_id r ∈ selected) computed) 0
                 alerts 0)) cc g total_hours computed Hc)
    as (listed' & Hl' & Hrows & Hflags).
  rewrite Hl' in Hlisted. injection Hlisted as ->.
  pose proof (alert_loop_completed _ _ _ _ _ _ _ _ _ _ Hk) as Hall.
  rewrite processed_sms_stub in Hall.
  assert (Listed.row l ∈ Listed.row <$> listed) as Hrow
    by (apply list_elem_of_fmap; eauto).
  rewrite Hrows in Hrow. apply list_elem_of_filter in Hrow as [H7 Hin].
  destruct (reconcile_all_tier7_sent cc g _ _ _ (Listed.row l) Hall
              (proj1 Hwf)) as [Hne Hset]; [by apply list_elem_of_filter|done|].
  destruct (Hflags l Hl) as (E7 & _ & _ & Ecount). cbn zeta in E7, Ecount.
  destruct (last (state_of _ cc g _)) as [a|] eqn:Hlast.
  - apply last_Some_elem_of in Hlast.
    split.
    + rewrite E7. simpl. rewrite Forall_forall in Hset. by apply Hset.
    + rewrite Ecount. simpl.
      apply list_elem_of_filter in Hlast as [_ Ha].
      rewrite Forall_forall in Hsound. by destruct (Hsound a Ha) as [Hn _].
  - apply last_None in Hlast. done.
Qed.

End AlertList.

(** * More on sending alerts *)

Section Runs.

Variable float_of_str : string → option float.
Variable str_of_float : float → string.

Local Open Scope string_scope.

Arguments Float.leb : simpl never.
Arguments Float.of_Z : simpl never.

Local Abbreviation notified := (notifications str_of_float send_sms_stub).

(** How far the loop of [send_alerts] gets: the first [n] rows are
    reconciled; an exception comes from the reconciliation of the next,
    after its notification. *)
Lemma alert_loop_progress server cc g target i alerts count :
  let run := alert_loop str_of_float send_sms_stub server cc g target i
               alerts count in
  ∃ n, reconcile_all str_of_float cc g (take n target) alerts
       = Some (run_alerts run)
    ∧ match sent_count run with
      | Some k => n = length target ∧ k = (count + n)%nat
                  ∧ run_log run = notified server cc target i
      | None => ∃ r, target !! n = Some r
                  ∧ reconcile str_of_float cc g r (run_alerts run) = None
                  ∧ run_log run = notified server cc (take (S n) target) i
      end.
Proof.
  cbn zeta. revert i alerts count.
  induction target as [|r target IH]; intros i alerts count.
  - exists 0%nat. simpl. split; [done|]. split_and!; [done|lia|done].
  - rewrite alert_loop_cons. cbn zeta.
    assert (channel_ok str_of_float send_sms_stub server cc i r = true) as ->
      by (unfold channel_ok; simpl; apply orb_true_r).
    destruct (reconcile str_of_float cc g r alerts) as [alerts1|] eqn:Hr.
    + destruct (IH (S i) alerts1 (S count)) as (n & Hall & Hrest).
      exists (S n). cbn [take reconcile_all]. rewrite Hr. simpl.
      split; [exact Hall|].
      destruct (sent_count _) as [k|].
      * destruct Hrest as (-> & -> & ->). split_and!; [done|lia|done].
      * destruct Hrest as (r' & Hn & Hnone & ->). exists r'.
        split_and!; done.
    + exists 0%nat. cbn [take notifications run_alerts run_log sent_count].
      split; [done|]. exists r. split_and!; done.
Qed.


Lemma elem_of_notified server cc target i e :
  e ∈ notified server cc target i →
  ∃ r, r ∈ target
       ∧ (e = email_of str_of_float cc r ∨ e = sms_line_of str_of_float cc r).
Proof.
  revert i. induction target as [|r target IH]; intros i; cbn [notifications].
  - by intros ?%elem_of_nil.
  - intros [He|He]%elem_of_app.
    + exists r. split; [by left|].
      unfold notification in He. apply elem_of_app in He as [He|He].
      * destruct (taken _); [|by apply elem_of_nil in He].
        apply list_elem_of_singleton in He. by left.
      * apply list_elem_of_singleton in He. by right.
    + destruct (IH _ He) as (r' & Hr' & Hor). exists r'. split; [by right|done].
Qed.

Lemma elem_of_run_log server cc g target i alerts count e :
  e ∈ run_log (alert_loop str_of_float send_sms_stub server cc g target i
                 alerts count) →
  ∃ r, r ∈ target
       ∧ (e = email_of str_of_float cc r ∨ e = sms_line_of str_of_float cc r).
Proof.
  intros He.
  destruct (alert_loop_progress server cc g target i alerts count)
    as (n & _ & Hlog). cbn zeta in Hlog.
  assert (∃ m, e ∈ notified server cc (take m target) i) as [m Hm].
  { destruct (sent_count _).
    - destruct Hlog as (_ & _ & Hl). exists (length target).
      by rewrite firstn_all, <-Hl.
    - destruct Hlog as (r & _ & _ & Hl). exists (S n). by rewrite <-Hl. }
  apply elem_of_notified in Hm as (r & Hr1 & Hr2).
  exists r. split; [|done]. by eapply subseteq_take.
Qed.

(** X16. A request to [/send-alerts] sends nothing to anybody else:
    every email the SMTP server takes goes to the address, and every
    SMS line is printed for the phone, of a student of the students file
    who is enrolled in the course and group and whose id is selected.
    When [compute_percentages] raises, nothing is sent or printed at all,
    and the alerts file stays as it is. *)
Theorem send_alerts_notifies_selected_only (server : nat → smtp_outcome)
    (students : list Student.t) (attendance : list Attendance.t)
    (alerts : list Alert.t) (cc g total_hours : string)
    (selected : list string) :
  let run := send_alerts float_of_str str_of_float server students
               attendance alerts cc g total_hours selected in
  (compute_percentages float_of_str students attendance cc g total_hours
   = None →
   run_log run = [] ∧ run_alerts run = alerts ∧ sent_count run = None)
  ∧ ∀ e, e ∈ run_log run →
      ∃ s, s ∈ students ∧ enrolled cc g s ∧ Student.student_id s ∈ selected
        ∧ ((∃ body, e = Smtp (Student.email s) (subject cc) body)
           ∨ ∃ text,
               e = Print ("[SMS] to " ++ Student.phone s ++ ": " ++ text)).
Proof.
  cbn zeta. unfold send_alerts.
  destruct (compute_percentages float_of_str students attendance cc g
              total_hours) as [computed|] eqn:Hc;
    [|split; [done|by intros e ?%elem_of_nil]].
  split; [done|].
  intros e (r & Hr & He)%elem_of_run_log.
  apply list_elem_of_filter in Hr as [Hsel Hr].
  apply compute_percentages_Forall2 in Hc.
  apply list_elem_of_lookup in Hr as [i Hi].
  destruct (Forall2_lookup_r _ _ _ _ _ Hc Hi)
    as (s & Hs & Hsid & _ & Hphone & Hemail & _).
  apply list_elem_of_lookup_2, list_elem_of_filter in Hs as [Hen Hs].
  exists s. rewrite <-Hsid, <-Hphone, <-Hemail. split_and!; try done.
  destruct He as [->| ->]; [left|right]; by eexists.
Qed.

End Runs.

(** * Recording absences *)

Section Absences.

Variable float_of_str : string → option float.
Variable strip : string → string.

Local Open Scope string_scope.

Arguments Float.add : simpl never.

Local Abbreviation record := (record_absence float_of_str strip).
Local Abbreviation hours := (hours_of float_of_str).
Local Abbreviation field :=
  (λ (form : gmap string string) key fallback,
     strip (default fallback (form !! key))).

Lemma record_absence_recorded form students attendance attendance' :
  record form students attendance = (attendance', Absence_recorded) →
  ∃ i s h,
    students !! i = Some s
    ∧ Student.student_id s = field form "student_id" ""
    ∧ (∀ j y, students !! j = Some y → (j < i)%nat →
              Student.student_id y ≠ field form "student_id" "")
    ∧ float_of_str (field form "hours" "0") = Some h
    ∧ attendance'
      = (attendance ++
         [ {| Attendance.student_id := field form "student_id" "";
              Attendance.name := Student.name s;
              Attendance.course_code := field form "course_code" "";
              Attendance.group := field form "group" "";
              Attendance.week := field form "week" "";
              Attendance.class_label := field form "class_label" "";
              Attendance.hours := field form "hours" "0";
              Attendance.date := field form "date" "" |} ])%list.
Proof.
  unfold record_absence. intros H.
  destruct (list_find _ students) as [[i s]|] eqn:Hf; [|by simplify_eq].
  apply list_find_Some in Hf as (Hi & Hs & Hfirst).
  destruct (float_of_str _) as [h|] eqn:Hh; [|by simplify_eq].
  injection H as <-. exists i, s, h. by split_and!.
Qed.

(** X17. [record_absence] looks the student up by id alone. Without a
    student of that id in the students file, or with hours that do not
    read as a float, it leaves the attendance file as it was; otherwise it
    adds one row at the end, with the name of the first student of that
    id and the course and group of the form, whether or not the student is
    enrolled there. *)
Theorem record_absence_outcome (form : gmap string string)
    (students : list Student.t) (attendance : list Attendance.t) :
  let known := ∃ s, s ∈ students
                    ∧ Student.student_id s = field form "student_id" "" in
  (¬ known →
   record form students attendance = (attendance, Student_not_found))
  ∧ (known → float_of_str (field form "hours" "0") = None →
     record form students attendance
     = (attendance, Hours_must_be_numeric))
  ∧ (known → is_Some (float_of_str (field form "hours" "0")) →
     ∃ i s,
       students !! i = Some s
       ∧ Student.student_id s = field form "student_id" ""
       ∧ (∀ j y, students !! j = Some y → (j < i)%nat →
                 Student.student_id y ≠ field form "student_id" "")
       ∧ record form students attendance
         = ((attendance ++
             [ {| Attendance.student_id := field form "student_id" "";
                  Attendance.name := Student.name s;
                  Attendance.course_code := field form "course_code" "";
                  Attendance.group := field form "group" "";
                  Attendance.week := field form "week" "";
                  Attendance.class_label := field form "class_label" "";
                  Attendance.hours := field form "hours" "0";
                  Attendance.date := field form "date" "" |} ])%list,
            Absence_recorded)).
Proof.
  cbn zeta. unfold record_absence.
  destruct (list_find _ students) as [[i s]|] eqn:Hf.
  - apply list_find_Some in Hf as (Hi & Hs & Hfirst).
    assert (∃ s0, s0 ∈ students
                  ∧ Student.student_id s0 = field form "student_id" "")
      as Hknown by (exists s; split; [by eapply list_elem_of_lookup_2|done]).
    split_and!; [by intros []| |].
    + intros _ Hh. by rewrite Hh.
    + intros _ [h Hh]. rewrite Hh. exists i, s. by split_and!.
  - apply list_find_None in Hf. rewrite Forall_forall in Hf.
    split_and!; [done| |]; intros (s & Hs & Hid); by destruct (Hf s Hs).
Qed.

(** X19. A recorded absence adds its hours, as a last summand, to the
    sum of its student in its course and group; every other sum is formed
    from the same hours as before. *)
Theorem record_absence_adds_hours (form : gmap string string)
    (students : list Student.t) (attendance attendance' : list Attendance.t) :
  record form students attendance = (attendance', Absence_recorded) →
  ∃ h,
    float_of_str (field form "hours" "0") = Some h
    ∧ total_of (hours (field form "course_code" "") (field form "group" "")
                  (field form "student_id" "") attendance')
      = Float.add
          (total_of (hours (field form "course_code" "")
                       (field form "group" "") (field form "student_id" "")
                       attendance)) h
    ∧ ∀ cc g sid,
        ¬ (cc = field form "course_code" "" ∧ g = field form "group" ""
           ∧ sid = field form "student_id" "") →
        hours cc g sid attendance' = hours cc g sid attendance.
Proof.
  intros (i & s & h & _ & _ & _ & Hh & ->)%record_absence_recorded.
  exists h. split; [exact Hh|].
  assert (∀ cc g sid l1 l2,
            hours cc g sid (l1 ++ l2)
            = (hours cc g sid l1 ++ hours cc g sid l2)%list) as Happ
    by (intros; apply omap_app).
  split.
  - rewrite Happ, hours_of_cons, decide_True by (by unfold event_of).
    cbn [Attendance.hours]. rewrite Hh. unfold total_of.
    by rewrite foldl_app.
  - intros cc g sid Hne. rewrite Happ, hours_of_cons.
    rewrite decide_False; [by rewrite app_nil_r|].
    intros (E1 & E2 & E3). apply Hne. simpl in *. by split_and!.
Qed.

End Absences.

(** * More on the roster upload *)

Section RosterRows.

Import Upload.

Lemma save_csv_written rows :
  ∃ n, (save_csv rows).1 = student_of <$> take n rows
    ∧ (∀ row, row ∈ take n rows → length row ≤ 8)
    ∧ ((save_csv rows).2 = true ∧ n = length rows
       ∨ (save_csv rows).2 = false
         ∧ ∃ row, rows !! n = Some row ∧ 8 < length row).
Proof.
  induction rows as [|row rows (n & Hw & Hshort & Hend)].
  - exists 0. split_and!; [done|by intros ? ?%elem_of_nil|by left].
  - cbn [save_csv]. change (length required) with 8.
    destruct (8 <? length row) eqn:Hlen.
    + apply Nat.ltb_lt in Hlen. exists 0.
      split_and!; [done|by intros ? ?%elem_of_nil|].
      right. split; [done|]. by exists row.
    + apply Nat.ltb_ge in Hlen.
      destruct (save_csv rows) as [written ok]. simpl in *.
      exists (S n). split_and!.
      * simpl. by rewrite Hw.
      * intros r [->|Hr]%elem_of_cons; [done|]. by apply Hshort.
      * destruct Hend as [[-> ->]|[-> Hrow]]; [by left|by right].
Qed.

(** X20. Behind a valid header, a record with more than eight fields
    ends the upload with the failure message after the students file has
    been opened for writing: the file then holds the rows before that
    record and nothing of the former roster. Without such a record the
    file holds all rows and the upload is reported as successful. *)
Theorem upload_students_long_record (records : list (list string))
    (students : list Student.t) :
  head records = Some required →
  let rows := filter (λ row, row ≠ []) (tail records) in
  ∃ n,
    (upload_students (Records records) students).1
    = student_of <$> take n rows
    ∧ (∀ row, row ∈ take n rows → length row ≤ 8)
    ∧ ((upload_students (Records records) students).2
       = Students_uploaded_successfully ∧ n = length rows
       ∨ (upload_students (Records records) students).2 = Upload_failed
         ∧ ∃ row, rows !! n = Some row ∧ 8 < length row).
Proof.
  intros Hhead. cbn zeta. unfold upload_students.
  rewrite bool_decide_eq_true_2 by done.
  destruct (save_csv_written (filter (λ row, row ≠ []) (tail records)))
    as (n & Hw & Hshort & Hend).
  destruct (save_csv _) as [written ok]. simpl in *.
  exists n. split_and!; [done|done|].
  destruct Hend as [[-> ->]|[-> Hrow]]; [by left|by right].
Qed.

End RosterRows.

(** * The further statements on the example course *)

Section MoreExamples.

Import Example.

Local Open Scope string_scope.

Local Abbreviation float_of_str := FloatText.float_of_str.
Local Abbreviation str_of_float := FloatText.str_of_float.

Lemma example_computed :
  compute_percentages float_of_str [ali; siti] [absence "3"] "CSC101" "A" "40"
  = Some [ali_row; siti_row].
Proof. vm_compute. reflexivity. Qed.

Lemma example_well_formed : well_formed [tracked].
Proof.
  split.
  - apply NoDup_singleton.
  - apply Forall_singleton. split.
    + exists 1%Z. split; [vm_compute; reflexivity|lia].
    + split; intros H; discriminate H.
Qed.

Lemma sum_hours_missed_totals_witness :
  ∃ missed,
    sum_hours_missed float_of_str [absence "3"; absence "2.5"] "CSC101" "A"
    = Some missed
    ∧ missed !! "S1"
      = Some (Float.add (Float.add Float.zero (Float.of_Z 3))
                (Float.of_hundredths false 250))
    ∧ missed !! "S2" = None.
Proof.
  destruct (sum_hours_missed float_of_str [absence "3"; absence "2.5"]
              "CSC101" "A") as [missed|] eqn:Hs;
    [|vm_compute in Hs; discriminate Hs].
  exists missed. split; [reflexivity|].
  pose proof (sum_hours_missed_totals float_of_str _ _ _ _ Hs) as Ht.
  split; rewrite Ht; vm_compute; reflexivity.
Defined.

Lemma compute_percentages_rows_witness :
  compute_percentages float_of_str [ali; siti] [absence "3"] "CSC101" "A" "40"
  = Some [ali_row; siti_row]
  ∧ Row.hours_missed ali_row
    = shown_hours (total_of (hours_of float_of_str "CSC101" "A" "S1"
                               [absence "3"]))
  ∧ Row.thresholds ali_row = thresholds_text (Row.percent ali_row).
Proof.
  split; [exact example_computed|].
  pose proof (compute_percentages_rows float_of_str _ _ _ _ _ _
                example_computed) as Hrows.
  apply Forall2_cons_1 in Hrows as [(_ & _ & _ & _ & Hh & _ & Ht) _].
  split; [exact Hh|exact Ht].
Defined.

Lemma nan_hours_reach_no_tier_witness :
  float_of_str "40" = Some (Float.of_Z 40)
  ∧ Float.ltb (Float.of_Z 0) (Float.of_Z 40) = true
  ∧ S754_nan ∈ hours_of float_of_str "CSC101" "A" "S1"
                 [absence "3"; absence_nan]
  ∧ ∃ rows r,
      compute_percentages float_of_str [ali; siti] [absence "3"; absence_nan]
        "CSC101" "A" "40" = Some rows
      ∧ rows !! 0%nat = Some r
      ∧ Row.student_id r = "S1"
      ∧ Row.percent r = S754_nan
      ∧ Row.thresholds r = "-".
Proof.
  assert (S754_nan ∈ hours_of float_of_str "CSC101" "A" "S1"
                       [absence "3"; absence_nan]) as Hnan.
  { apply list_elem_of_lookup. exists 1%nat. vm_compute. reflexivity. }
  split_and!; [vm_compute; reflexivity..|exact Hnan|].
  destruct (compute_percentages float_of_str [ali; siti]
              [absence "3"; absence_nan] "CSC101" "A" "40")
    as [rows|] eqn:Hc; [|vm_compute in Hc; discriminate Hc].
  destruct (rows !! 0%nat) as [r|] eqn:Hr;
    [|vm_compute in Hc; injection Hc as <-; discriminate Hr].
  assert (Row.student_id r = "S1") as Hsid.
  { vm_compute in Hc. injection Hc as <-. injection Hr as <-. reflexivity. }
  exists rows, r. split_and!; [reflexivity|exact Hr|exact Hsid| |].
  - apply (nan_hours_reach_no_tier float_of_str _ _ _ _ _ (Float.of_Z 40) _ Hc);
      [vm_compute; reflexivity..|by eapply list_elem_of_lookup_2|].
    rewrite Hsid. exact Hnan.
  - apply (nan_hours_reach_no_tier float_of_str _ _ _ _ _ (Float.of_Z 40) _ Hc);
      [vm_compute; reflexivity..|by eapply list_elem_of_lookup_2|].
    rewrite Hsid. exact Hnan.
Defined.

Lemma percent_of_non_finite_total_witness :
  float_of_str "inf" = Some (S754_infinity false)
  ∧ Float.is_finite (S754_infinity false) = false
  ∧ Float.is_finite (Float.of_Z 3) = true
  ∧ ∃ s, percent_of float_of_str (Float.of_Z 3) "inf" = Some (S754_zero s).
Proof.
  split_and!; [vm_compute; reflexivity..|].
  apply (percent_of_non_finite_total float_of_str (Float.of_Z 3)
           (S754_infinity false) "inf"); vm_compute; reflexivity.
Defined.

Lemma upsert_alert_keeps_keys_unique_witness :
  upsert_alert str_of_float "S2" "Siti" "CSC101" "A" Float.zero false false
    false [tracked]
  = Some [tracked;
          {| Alert.student_id := "S2"; Alert.name := "Siti";
             Alert.course_code := "CSC101"; Alert.group := "A";
             Alert.percent := "0.0"; Alert.count := "1";
             Alert.sent7 := ""; Alert.sent10 := ""; Alert.sent15 := "" |}]
  ∧ unique_keys [tracked]
  ∧ unique_keys
      [tracked;
       {| Alert.student_id := "S2"; Alert.name := "Siti";
          Alert.course_code := "CSC101"; Alert.group := "A";
          Alert.percent := "0.0"; Alert.count := "1";
          Alert.sent7 := ""; Alert.sent10 := ""; Alert.sent15 := "" |}].
Proof.
  assert (upsert_alert str_of_float "S2" "Siti" "CSC101" "A" Float.zero false
            false false [tracked]
          = Some [tracked;
                  {| Alert.student_id := "S2"; Alert.name := "Siti";
                     Alert.course_code := "CSC101"; Alert.group := "A";
                     Alert.percent := "0.0"; Alert.count := "1";
                     Alert.sent7 := ""; Alert.sent10 := "";
                     Alert.sent15 := "" |}]) as Hu
    by (vm_compute; reflexivity).
  assert (unique_keys [tracked]) as Hk by apply NoDup_singleton.
  split_and!; [exact Hu|exact Hk|].
  by apply (upsert_alert_keeps_keys_unique str_of_float _ _ _ _ _ _ _ _ _ _ Hu).
Defined.

Lemma send_alerts_keeps_well_formed_witness :
  well_formed [tracked]
  ∧ well_formed
      (run_alerts (send_alerts float_of_str str_of_float smtp_up [ali; siti]
                     [absence "3"] [tracked] "CSC101" "A" "40" ["S1"; "S2"])).
Proof.
  split; [exact example_well_formed|].
  apply (send_alerts_keeps_well_formed float_of_str str_of_float smtp_up
           [ali; siti] [absence "3"] [tracked] "CSC101" "A" "40" ["S1"; "S2"]).
  exact example_well_formed.
Defined.

Lemma send_alerts_counts_runs_witness :
  compute_percentages float_of_str [ali; siti] [absence "3"] "CSC101" "A" "40"
  = Some [ali_row; siti_row]
  ∧ sent_count (send_alerts float_of_str str_of_float smtp_up [ali; siti]
                  [absence "3"] [tracked] "CSC101" "A" "40" ["S1"]) = Some 1%nat
  ∧ count_of "S1" "CSC101" "A" [tracked] = Some 1%Z
  ∧ count_of "S1" "CSC101" "A"
      (run_alerts (send_alerts float_of_str str_of_float smtp_up [ali; siti]
                     [absence "3"] [tracked] "CSC101" "A" "40" ["S1"]))
    = Some 2%Z.
Proof.
  assert (sent_count (send_alerts float_of_str str_of_float smtp_up
                        [ali; siti] [absence "3"] [tracked] "CSC101" "A" "40"
                        ["S1"]) = Some 1%nat) as Hk
    by (vm_compute; reflexivity).
  assert (count_of "S1" "CSC101" "A" [tracked] = Some 1%Z) as Hn
    by (vm_compute; reflexivity).
  split_and!; [exact example_computed|exact Hk|exact Hn|].
  rewrite (send_alerts_counts_runs float_of_str str_of_float smtp_up
             [ali; siti] [absence "3"] [tracked] "CSC101" "A" "40" ["S1"]
             _ 1%nat example_computed Hk "S1" 1%Z Hn).
  vm_compute. reflexivity.
Defined.

Lemma load_alerts_map_row_witness :
  unique_keys [tracked]
  ∧ load_alerts_map [tracked] "CSC101" "A" !! "S1" = Some tracked.
Proof.
  assert (unique_keys [tracked]) as Hk by apply NoDup_singleton.
  split; [exact Hk|].
  destruct (load_alerts_map_row [tracked] "CSC101" "A" "S1") as [_ Hhead].
  rewrite (Hhead Hk). vm_compute. reflexivity.
Defined.

Lemma upsert_then_load_witness :
  unique_keys [tracked]
  ∧ ∃ alerts' a',
      upsert_alert str_of_float "S1" "Ali" "CSC101" "A"
        (Float.of_hundredths false 1250) true true false [tracked]
      = Some alerts'
      ∧ load_alerts_map alerts' "CSC101" "A" !! "S1" = Some a'
      ∧ Alert.count a' = "2"
      ∧ Alert.percent a' = "12.5"
      ∧ is_set (Alert.sent10 a').
Proof.
  assert (unique_keys [tracked]) as Hk by apply NoDup_singleton.
  split; [exact Hk|].
  destruct (upsert_alert str_of_float "S1" "Ali" "CSC101" "A"
              (Float.of_hundredths false 1250) true true false [tracked])
    as [alerts'|] eqn:Hu; [|vm_compute in Hu; discriminate Hu].
  destruct (upsert_then_load str_of_float _ _ _ _ _ _ _ _ _ _ Hk Hu)
    as [(a' & n & Hl & Hn & Hc & Hp & _ & H10 & _) _].
  exists alerts', a'. split_and!; [reflexivity|exact Hl| | |by apply H10].
  - rewrite Hc. vm_compute in Hn. injection Hn as <-. vm_compute. reflexivity.
  - rewrite Hp. vm_compute. reflexivity.
Defined.

Lemma alerts_rows_lists_tier7_witness :
  compute_percentages float_of_str [ali; siti] [absence "3"] "CSC101" "A" "40"
  = Some [ali_row; siti_row]
  ∧ ∃ listed,
      alerts_rows float_of_str [ali; siti] [absence "3"] [tracked] "CSC101"
        "A" "40" = Some listed
      ∧ Listed.row <$> listed = [ali_row].
Proof.
  split; [exact example_computed|].
  destruct (alerts_rows_lists_tier7 float_of_str [ali; siti] [absence "3"]
              [tracked] "CSC101" "A" "40" _ example_computed)
    as (listed & Hl & Hrows & _).
  exists listed. split; [exact Hl|]. rewrite Hrows. vm_compute. reflexivity.
Defined.

Lemma alerts_after_send_alerts_witness :
  well_formed [tracked]
  ∧ sent_count (send_alerts float_of_str str_of_float smtp_down [ali; siti]
                  [absence "3"] [tracked] "CSC101" "A" "40" ["S1"]) = Some 1%nat
  ∧ ∃ listed l,
      alerts_rows float_of_str [ali; siti] [absence "3"]
        (run_alerts (send_alerts float_of_str str_of_float smtp_down
                       [ali; siti] [absence "3"] [tracked] "CSC101" "A" "40"
                       ["S1"])) "CSC101" "A" "40" = Some listed
      ∧ listed !! 0%nat = Some l
      ∧ is_set (Listed.sent7 l).
Proof.
  assert (sent_count (send_alerts float_of_str str_of_float smtp_down
                        [ali; siti] [absence "3"] [tracked] "CSC101" "A" "40"
                        ["S1"]) = Some 1%nat) as Hk
    by (vm_compute; reflexivity).
  split_and!; [exact example_well_formed|exact Hk|].
  destruct (alerts_rows float_of_str [ali; siti] [absence "3"]
              (run_alerts (send_alerts float_of_str str_of_float smtp_down
                             [ali; siti] [absence "3"] [tracked] "CSC101" "A"
                             "40" ["S1"])) "CSC101" "A" "40")
    as [listed|] eqn:Hl; [|vm_compute in Hl; discriminate Hl].
  destruct (listed !! 0%nat) as [l|] eqn:Hl0;
    [|vm_compute in Hl; injection Hl as <-; discriminate Hl0].
  exists listed, l. split_and!; [reflexivity|exact Hl0|].
  apply (alerts_after_send_alerts float_of_str str_of_float smtp_down
           [ali; siti] [absence "3"] [tracked] "CSC101" "A" "40" ["S1"]
           1%nat listed example_well_formed Hk Hl l).
  - by eapply list_elem_of_lookup_2.
  - vm_compute in Hl. injection Hl as <-. injection Hl0 as <-.
    apply list_elem_of_singleton. reflexivity.
Defined.


Lemma send_alerts_notifies_selected_only_witness :
  Print "[SMS] to 0123: Ali has 7.5% absenteeism for CSC101. Please advise."
  ∈ run_log (send_alerts float_of_str str_of_float smtp_up [ali; siti]
               [absence "3"] [tracked] "CSC101" "A" "40" ["S1"])
  ∧ ∃ s, s ∈ [ali; siti] ∧ enrolled "CSC101" "A" s
         ∧ Student.student_id s ∈ ["S1"].
Proof.
  assert (Print "[SMS] to 0123: Ali has 7.5% absenteeism for CSC101. Please advise."
          ∈ run_log (send_alerts float_of_str str_of_float smtp_up [ali; siti]
                       [absence "3"] [tracked] "CSC101" "A" "40" ["S1"]))
    as He.
  { apply list_elem_of_lookup. exists 1%nat. vm_compute. reflexivity. }
  split; [exact He|].
  destruct (send_alerts_notifies_selected_only float_of_str str_of_float
              smtp_up [ali; siti] [absence "3"] [tracked] "CSC101" "A" "40"
              ["S1"]) as [_ Hall].
  destruct (Hall _ He) as (s & Hs & Hen & Hsel & _).
  exists s. split_and!; [exact Hs|exact Hen|exact Hsel].
Defined.

Lemma record_absence_outcome_witness :
  ¬ (∃ s, s ∈ [siti] ∧ Student.student_id s = "S1")
  ∧ record_absence float_of_str PyInt.strip absence_form [siti] [absence "3"]
    = ([absence "3"], Student_not_found).
Proof.
  assert (¬ (∃ s, s ∈ [siti] ∧ Student.student_id s = "S1")) as Hunknown.
  { intros (s & Hs & Hid). apply list_elem_of_singleton in Hs. subst s.
    discriminate Hid. }
  split; [exact Hunknown|].
  destruct (record_absence_outcome float_of_str PyInt.strip absence_form
              [siti] [absence "3"]) as [Hreject _].
  apply Hreject. exact Hunknown.
Defined.

Lemma record_absence_adds_hours_witness :
  record_absence float_of_str PyInt.strip absence_form [ali; siti]
    [absence "3"]
  = ([absence "3";
      {| Attendance.student_id := "S1"; Attendance.name := "Ali";
         Attendance.course_code := "CSC101"; Attendance.group := "A";
         Attendance.week := "4"; Attendance.class_label := "Lab";
         Attendance.hours := "2.5"; Attendance.date := "2024-03-11" |}],
     Absence_recorded)
  ∧ ∃ h, float_of_str "2.5" = Some h
         ∧ hours_of float_of_str "CSC101" "A" "S2"
             [absence "3";
              {| Attendance.student_id := "S1"; Attendance.name := "Ali";
                 Attendance.course_code := "CSC101"; Attendance.group := "A";
                 Attendance.week := "4"; Attendance.class_label := "Lab";
                 Attendance.hours := "2.5";
                 Attendance.date := "2024-03-11" |}]
           = hours_of float_of_str "CSC101" "A" "S2" [absence "3"].
Proof.
  assert (record_absence float_of_str PyInt.strip absence_form [ali; siti]
            [absence "3"]
          = ([absence "3";
              {| Attendance.student_id := "S1"; Attendance.name := "Ali";
                 Attendance.course_code := "CSC101"; Attendance.group := "A";
                 Attendance.week := "4"; Attendance.class_label := "Lab";
                 Attendance.hours := "2.5";
                 Attendance.date := "2024-03-11" |}],
             Absence_recorded)) as Hrec
    by (vm_compute; reflexivity).
  split; [exact Hrec|].
  destruct (record_absence_adds_hours float_of_str PyInt.strip _ _ _ _ Hrec)
    as (h & Hh & _ & Hother).
  exists h. split; [exact Hh|].
  apply Hother. intros (_ & _ & Hsid). vm_compute in Hsid. discriminate Hsid.
Defined.

Lemma upload_students_long_record_witness :
  head roster_long = Some Upload.required
  ∧ (Upload.upload_students (Upload.Records roster_long) [ali; siti]).2
    = Upload.Upload_failed
  ∧ ∃ n, (Upload.upload_students (Upload.Records roster_long) [ali; siti]).1
         = Upload.student_of <$> take n (filter (λ row, row ≠ [])
                                           (tail roster_long)).
Proof.
  split_and!; [reflexivity|vm_compute; reflexivity|].
  destruct (upload_students_long_record roster_long [ali; siti] eq_refl)
    as (n & Hn & _).
  exists n. exact Hn.
Defined.

End MoreExamples.
